(** * JunctionRelay test fixtures: a receiver and a fake-sensor emulator

    Shallow embedding of [TestClient/TestClient5000.py] (the receiver, one
    Flask handler [receive_data]) and [TestServer/TestServer5003.py] (the
    emulator: the global [sensors_data], the background loop
    [update_fake_sensors] and the handler [data_json]).

    The Python builtins the two programs call are modelled first:
    binary64 arithmetic ([float], [+], the format spec [.1f]), decimal
    text, dictionaries and truthiness. *)

From Stdlib Require Import ZArith NArith QArith Qround Qpower Qabs Lia Lqa.
From Stdlib Require Import Ascii String List Bool.
From stdpp Require Import base list gmap strings.

Local Open Scope Z_scope.

(** ** Binary64 numbers

    A Python [float] is an IEEE 754 binary64 number.  A finite one is kept
    as its sign and its exact magnitude, a rational; every operation is the
    exact operation on rationals followed by rounding to nearest, ties to
    even, with 53 bits of precision, subnormals below [2^-1022] and overflow
    to infinity from [2^1024] on. *)

Module Binary64.

Definition prec : Z := 53.
Definition emin : Z := -1074.
Definition emax : Z := 1024.

Definition pow2 (e : Z) : Q := (2 ^ e)%Q.

(** Integer nearest to [q], a tie going to the even neighbour. *)
Definition round_half_even (q : Q) : Z :=
  let f := Qfloor q in
  match (q - inject_Z f ?= 1 # 2)%Q with
  | Lt => f
  | Gt => f + 1
  | Eq => if Z.even f then f else f + 1
  end.

(** [ilog2 q] is the integer [l] with [2^l <= q < 2^(l+1)], for [0 < q]. *)
Definition ilog2 (q : Q) : Z :=
  let l := Z.log2 (Qnum q) - Z.log2 (Zpos (Qden q)) in
  if Qle_bool (pow2 l) q then l else l - 1.

(** Exponent of the unit in the last place of the binade of [q]. *)
Definition ulp_exp (q : Q) : Z := Z.max (ilog2 q - (prec - 1)) emin.

(** Rounding of a magnitude [0 <= q], exponent range unbounded above. *)
Definition RN (q : Q) : Q :=
  if Qeq_bool q 0 then 0%Q
  else let e := ulp_exp q in
       (inject_Z (round_half_even (q / pow2 e)) * pow2 e)%Q.

Inductive float : Type :=
  | Finite (neg : bool) (mag : Q)
  | Infinity (neg : bool)
  | NaN.

(** The float nearest to the real number of sign [neg] and magnitude [q]. *)
Definition of_Q (neg : bool) (q : Q) : float :=
  let r := RN q in
  if Qle_bool (pow2 emax) r then Infinity neg else Finite neg (Qred r).

Definition signed (neg : bool) (q : Q) : Q := if neg then (- q)%Q else q.

(** [x + y] on floats. *)
Definition add (x y : float) : float :=
  match x, y with
  | NaN, _ | _, NaN => NaN
  | Infinity a, Infinity b => if Bool.eqb a b then Infinity a else NaN
  | Infinity a, Finite _ _ => Infinity a
  | Finite _ _, Infinity b => Infinity b
  | Finite a p, Finite b q =>
      let s := (signed a p + signed b q)%Q in
      match (s ?= 0)%Q with
      | Eq => Finite (a && b) 0%Q
      | Gt => of_Q false s
      | Lt => of_Q true (- s)%Q
      end
  end.

(** The double nearest to one tenth, the value of the literal [0.1]. *)
Definition tenth : Q := 3602879701896397 # 36028797018963968.

Definition is_zero (x : float) : bool :=
  match x with
  | Finite _ q => Qeq_bool q 0
  | _ => false
  end.

End Binary64.

(** ** Exceptions and results of Python evaluation *)

Inductive exn : Type :=
  | ValueError | TypeError | AttributeError | KeyError | IndexError
  | BadRequest | UnsupportedMediaType.

Inductive result (A : Type) : Type :=
  | Ok (a : A)
  | Raise (e : exn).
Arguments Ok {A} a.
Arguments Raise {A} e.

(** ** Decimal text: [float(str)] and the format spec [.1f] *)

Module PyText.
Import Binary64.
Local Open Scope char_scope.
Local Open Scope N_scope.

Definition digit_char (d : N) : ascii := ascii_of_N (48 + d).

Definition digit_of (c : ascii) : option N :=
  let n := N_of_ascii c in
  if (48 <=? n) && (n <=? 57) then Some (n - 48) else None.

Definition is_digit (d : N) : Prop := d < 10.

(** Value of a list of digits read after the value [acc]. *)
Definition dval (dl : list N) (acc : N) : N :=
  fold_left (fun a d => 10 * a + d) dl acc.

Definition is_digit_char (c : ascii) : bool :=
  match digit_of c with Some _ => true | None => false end.

(** Decimal digits of [n], most significant first, no leading zero. *)
Fixpoint digits_fuel (fuel : nat) (n : N) (acc : list ascii) : list ascii :=
  match fuel with
  | O => acc
  | S f =>
      let acc' := digit_char (n mod 10) :: acc in
      if n <? 10 then acc' else digits_fuel f (n / 10) acc'
  end.

Definition decimal_of_N (n : N) : list ascii :=
  digits_fuel (S (N.to_nat (N.log2 n))) n [].

(** The whitespace [float] removes at both ends of an ASCII string: tab,
    line feed, vertical tab, form feed, carriage return and space. *)
Definition is_space (c : ascii) : bool :=
  let n := N_of_ascii c in
  ((9 <=? n) && (n <=? 13)) || (n =? 32).

Fixpoint lstrip (l : list ascii) : list ascii :=
  match l with
  | c :: l' => if is_space c then lstrip l' else l
  | [] => []
  end.

Definition strip (l : list ascii) : list ascii :=
  rev (lstrip (rev (lstrip l))).

Definition lower (c : ascii) : ascii :=
  let n := N_of_ascii c in
  if (65 <=? n) && (n <=? 90) then ascii_of_N (n + 32) else c.

Definition read_sign (l : list ascii) : bool * list ascii :=
  match l with
  | "-" :: l' => (true, l')
  | "+" :: l' => (false, l')
  | _ => (false, l)
  end.

(** The rest of a [digitpart]: digits, each optionally preceded by one
    underscore.  Returns the value read, the number of digits, and the
    unread input. *)
Fixpoint digitpart_tail (l : list ascii) (acc : N) (cnt : nat)
  : N * nat * list ascii :=
  match l with
  | c :: l' =>
      match digit_of c with
      | Some d => digitpart_tail l' (10 * acc + d) (S cnt)
      | None =>
          if Ascii.eqb c "_" then
            match l' with
            | c2 :: l'' =>
                match digit_of c2 with
                | Some d => digitpart_tail l'' (10 * acc + d) (S cnt)
                | None => (acc, cnt, l)
                end
            | [] => (acc, cnt, l)
            end
          else (acc, cnt, l)
      end
  | [] => (acc, cnt, [])
  end.

Definition read_digitpart (l : list ascii) : option (N * nat * list ascii) :=
  match l with
  | c :: l' =>
      match digit_of c with
      | Some d => Some (digitpart_tail l' d 1%nat)
      | None => None
      end
  | [] => None
  end.

(** [number ::= [digitpart] "." digitpart | digitpart ["."]]: the integer
    made of all digits, and the number of digits after the point. *)
Definition read_number (l : list ascii) : option (N * nat * list ascii) :=
  match read_digitpart l with
  | Some (ip, _, r) =>
      match r with
      | "." :: r' =>
          match read_digitpart r' with
          | Some (fp, n, r'') => Some (ip * 10 ^ N.of_nat n + fp, n, r'')
          | None => Some (ip, O, r')
          end
      | _ => Some (ip, O, r)
      end
  | None =>
      match l with
      | "." :: r' => read_digitpart r'
      | _ => None
      end
  end.

(** [exponent ::= ("e" | "E") [sign] digitpart], optional. *)
Definition read_exponent (l : list ascii) : option (Z * list ascii) :=
  match l with
  | c :: r =>
      if Ascii.eqb (lower c) "e" then
        let (neg, r') := read_sign r in
        match read_digitpart r' with
        | Some (v, _, r'') =>
            Some (if neg then (- Z.of_N v)%Z else Z.of_N v, r'')
        | None => None
        end
      else Some (0%Z, l)
  | [] => Some (0%Z, [])
  end.

Definition is_keyword (w : string) (l : list ascii) : bool :=
  String.eqb (string_of_list_ascii (map lower l)) w.

(** [float(s)] for a string [s] of ASCII characters.  (A byte above 127
    is never accepted here; Python also reads the whitespace and the
    decimal digits of other scripts.) *)
Definition py_float (s : string) : result float :=
  let (neg, body) := read_sign (strip (list_ascii_of_string s)) in
  if is_keyword "inf" body || is_keyword "infinity" body then Ok (Infinity neg)
  else if is_keyword "nan" body then Ok NaN
  else
    match read_number body with
    | Some (m, n, r) =>
        match read_exponent r with
        | Some (e, []) =>
            Ok (of_Q neg (inject_Z (Z.of_N m) * 10 ^ (e - Z.of_nat n))%Q)
        | _ => Raise ValueError
        end
    | None => Raise ValueError
    end.

(** ["{:.1f}".format(x)] for a float [x]. *)
Definition format_1f (x : float) : string :=
  match x with
  | NaN => "nan"
  | Infinity neg => if neg then "-inf" else "inf"
  | Finite neg q =>
      let t := Z.to_N (round_half_even (q * 10)%Q) in
      string_of_list_ascii
        ((if neg then ["-"] else []) ++
         decimal_of_N (t / 10) ++ "." :: digit_char (t mod 10) :: [])
  end.

(** The literal [0.1]. *)
Definition lit_0_1 : float := of_Q false (1 # 10).

End PyText.

(** ** The receiver: [TestClient/TestClient5000.py] *)

Module Receiver.
Import Binary64 PyText.

(** A decoded JSON document, as [json.loads] builds it: [None], [bool],
    [int], [float], [str], [list], and [dict] with its keys in insertion
    order (the keys of a dict are pairwise distinct). *)
#[warnings="-register-all"]
Inductive json : Type :=
  | JNull
  | JBool (b : bool)
  | JInt (z : Z)
  | JFloat (x : float)
  | JStr (s : string)
  | JList (l : list json)
  | JDict (kvs : list (string * json)).

(** [bool(v)], the test of [if data:]. *)
Definition truthy (v : json) : bool :=
  match v with
  | JNull => false
  | JBool b => b
  | JInt z => negb (z =? 0)
  | JFloat x => negb (is_zero x)
  | JStr s => negb (String.eqb s EmptyString)
  | JList l => match l with [] => false | _ => true end
  | JDict kvs => match kvs with [] => false | _ => true end
  end.

(** [d.get(key, default)] on the items of a dict. *)
Fixpoint dict_get (kvs : list (string * json)) (key : string) (default : json)
  : json :=
  match kvs with
  | [] => default
  | (k, v) :: rest => if String.eqb k key then v else dict_get rest key default
  end.

(** [sensor.get(key, default)]: only a dict has the attribute [get]. *)
Definition sensor_get (sensor : json) (key : string) (default : json)
  : result json :=
  match sensor with
  | JDict kvs => Ok (dict_get kvs key default)
  | _ => Raise AttributeError
  end.

(** The elements [for sensor in data] visits: the items of a list, the keys
    of a dict, the characters of a string; other values are not iterable. *)
Definition py_iter (data : json) : result (list json) :=
  match data with
  | JList l => Ok l
  | JDict kvs => Ok (map (fun kv => JStr (fst kv)) kvs)
  | JStr s => Ok (map (fun c => JStr (String c EmptyString))
                      (list_ascii_of_string s))
  | _ => Raise TypeError
  end.

Definition decimal_of_Z (z : Z) : string :=
  let digits := string_of_list_ascii (decimal_of_N (Z.abs_N z)) in
  if z <? 0 then String "-" digits else digits.

(** Zero-padded two-digit field of [strftime]. *)
Definition pad2 (n : N) : string :=
  string_of_list_ascii [digit_char (n / 10 mod 10); digit_char (n mod 10)].

Record datetime : Type := {
  year : N; month : N; day : N; hour : N; minute : N; second : N
}.

(** [now.strftime('%Y-%m-%d %H:%M:%S')]; the C library prints [%Y] as the
    plain decimal year. *)
Definition strftime (now : datetime) : string :=
  string_of_list_ascii (decimal_of_N (year now)) +:+ "-" +:+
  pad2 (month now) +:+ "-" +:+ pad2 (day now) +:+ " " +:+
  pad2 (hour now) +:+ ":" +:+ pad2 (minute now) +:+ ":" +:+ pad2 (second now).

(** The HTTP reply of the application. *)
Record response : Type := { body : json; status : Z }.

(** What one call of the handler does: the lines it printed, in order, and
    the value it returned or the exception it raised. *)
Record outcome : Type := { printed : list string; returned : result response }.

(** The request as the handler sees it through [request.json]: whether the
    Content-Type announces JSON, and the document the body decodes to
    ([None] when the body is absent, empty or not well-formed JSON). *)
Record request : Type := { is_json : bool; payload : option json }.

(** What Flask's [request.json] does when the Content-Type is not JSON:
    before 2.1 it evaluates to [None], from 2.1 it aborts with 400 and from
    2.3 with 415. *)
Inductive flask : Type := Flask_2_0 | Flask_2_1 | Flask_2_3.

(** [request.json], that is [get_json()] with its default arguments: a body
    announced as JSON that does not decode makes [on_json_loading_failed]
    raise [BadRequest]. *)
Definition request_json (fl : flask) (req : request) : result json :=
  if is_json req then
    match payload req with
    | Some v => Ok v
    | None => Raise BadRequest
    end
  else
    match fl with
    | Flask_2_0 => Ok JNull
    | Flask_2_1 => Raise BadRequest
    | Flask_2_3 => Raise UnsupportedMediaType
    end.

Definition success : response :=
  {| body := JDict [("status", JStr "success")]; status := 200 |}.

Definition no_data_received : response :=
  {| body := JDict [("status", JStr "no data received")]; status := 400 |}.

Section Handler.

(** [repr] of a float, a list or a dict, which [str] falls back on inside
    an f-string; the handler never inspects that text. *)
Variable py_repr : json -> string.

(** [str(v)], the text an f-string field [{v}] expands to. *)
Definition py_str (v : json) : string :=
  match v with
  | JNull => "None"
  | JBool true => "True"
  | JBool false => "False"
  | JInt z => decimal_of_Z z
  | JStr s => s
  | JFloat _ | JList _ | JDict _ => py_repr v
  end.

(** The body of the [for] loop up to its [print]: the line for one
    element. *)
Definition sensor_line (sensor : json) : result string :=
  match sensor_get sensor "ExternalId" (JStr "N/A") with
  | Raise e => Raise e
  | Ok sensor_id =>
  match sensor_get sensor "Name" (JStr "N/A") with
  | Raise e => Raise e
  | Ok sensor_name =>
  match sensor_get sensor "Value" (JStr "N/A") with
  | Raise e => Raise e
  | Ok sensor_value =>
  match sensor_get sensor "SensorTag" (JStr "N/A") with
  | Raise e => Raise e
  | Ok sensor_tag =>
      Ok ("Sensor ID: " +:+ py_str sensor_id +:+
          ", Sensor Name: " +:+ py_str sensor_name +:+
          ", Sensor Tag: " +:+ py_str sensor_tag +:+
          ", Value: " +:+ py_str sensor_value)
  end end end end.

(** The [for] loop: the lines printed, and the exception that stopped it,
    if any. *)
Fixpoint log_sensors (elems : list json) : list string * option exn :=
  match elems with
  | [] => ([], None)
  | sensor :: rest =>
      match sensor_line sensor with
      | Raise e => ([], Some e)
      | Ok line => let (lines, r) := log_sensors rest in (line :: lines, r)
      end
  end.

(** [receive_data()], with the clock reading [now] of [datetime.now()]. *)
Definition receive_data (fl : flask) (now : datetime) (req : request)
  : outcome :=
  match request_json fl req with
  | Raise e => {| printed := []; returned := Raise e |}
  | Ok data =>
      if truthy data then
        let timestamp := strftime now in
        let header := "Received data at " +:+ timestamp +:+ ":" in
        match py_iter data with
        | Raise e => {| printed := [header]; returned := Raise e |}
        | Ok elems =>
            let (lines, r) := log_sensors elems in
            {| printed := header :: lines;
               returned := match r with
                           | Some e => Raise e
                           | None => Ok success
                           end |}
        end
      else {| printed := []; returned := Ok no_data_received |}
  end.

End Handler.

(** What the client receives.  Flask sends what the handler returns; an
    [HTTPException] becomes an error page with its own code, any other
    exception an error page with code 500. *)
Inductive reply : Type :=
  | Json (code : Z) (v : json)
  | ErrorPage (code : Z).

Definition http_reply (r : result response) : reply :=
  match r with
  | Ok resp => Json (status resp) (body resp)
  | Raise BadRequest => ErrorPage 400
  | Raise UnsupportedMediaType => ErrorPage 415
  | Raise _ => ErrorPage 500
  end.


(** *** Vocabulary of the statements about the receiver *)

Definition is_dict (v : json) : bool :=
  match v with JDict _ => true | _ => false end.

(** A JSON array of objects, the documented body of [POST /data]. *)
Definition list_of_dicts (v : json) : bool :=
  match v with JList l => forallb is_dict l | _ => false end.

(** The value bound to [key], if the key is present. *)
Fixpoint dict_lookup (kvs : list (string * json)) (key : string) : option json :=
  match kvs with
  | [] => None
  | (k, v) :: rest => if String.eqb k key then Some v else dict_lookup rest key
  end.




(** A POST whose Content-Type announces JSON and whose body decodes
    to [v]. *)
Definition post (v : json) : request := {| is_json := true; payload := Some v |}.

Definition sample_clock : datetime :=
  {| year := 2024; month := 3; day := 7; hour := 9; minute := 5; second := 0 |}.

Definition sample_reading : json :=
  JDict [("ExternalId", JStr "1"); ("Name", JStr "Temp");
         ("Value", JStr "20"); ("SensorTag", JStr "T1")].

(** A [repr] for the examples, which hold no float, list or dict field. *)
Definition no_repr (_ : json) : string := EmptyString.

Section Lines.

Variable py_repr : json -> string.

(** How a field of an element is shown: its text, or "N/A" when the key is
    missing. *)
Definition shown (sensor : json) (key : string) : string :=
  match sensor with
  | JDict kvs =>
      match dict_lookup kvs key with
      | Some v => py_str py_repr v
      | None => "N/A"
      end
  | _ => EmptyString
  end.

Definition shown_line (sensor : json) : string :=
  "Sensor ID: " +:+ shown sensor "ExternalId" +:+
  ", Sensor Name: " +:+ shown sensor "Name" +:+
  ", Sensor Tag: " +:+ shown sensor "SensorTag" +:+
  ", Value: " +:+ shown sensor "Value".

End Lines.

(** *** Vocabulary of the further properties *)



(** The four keys the handler reads. *)
Definition logged_keys : list string :=
  ["ExternalId"; "Name"; "Value"; "SensorTag"]%string.

End Receiver.

(** ** The emulator: [TestServer/TestServer5003.py] *)

Module Emulator.
Import Binary64 PyText.

Definition REFRESH_RATE : Z := 5.
Definition WEB_SERVER_PORT : Z := 5003.

(** The global list of fake sensors, each a dict from strings to strings. *)
Definition sensors_data : list (gmap string string) :=
  [ {[ "Text" := "Fake Sensor 1"; "Type" := "Temperature";
       "Value" := "88.0"; "SensorId" := "fake_sensor_1" ]};
    {[ "Text" := "Fake Sensor 2"; "Type" := "Humidity";
       "Value" := "20.0"; "SensorId" := "fake_sensor_2" ]};
    {[ "Text" := "Fake Sensor 3"; "Type" := "Pressure";
       "Value" := "11.0"; "SensorId" := "fake_sensor_3" ]} ].

(** The new text of a [Value]:
    ["{:.1f}".format(float(value) + 0.1)]. *)
Definition bump (value : string) : result string :=
  match py_float value with
  | Ok x => Ok (format_1f (add x lit_0_1))
  | Raise e => Raise e
  end.

(** One statement of the loop body,
    [data[i]["Value"] = "{:.1f}".format(float(data[i]["Value"]) + 0.1)]:
    an index out of range raises [IndexError], a missing key [KeyError]. *)
Definition update_sensor (i : nat) (data : list (gmap string string))
  : result (list (gmap string string)) :=
  match data !! i with
  | None => Raise IndexError
  | Some sensor =>
      match sensor !! "Value" with
      | None => Raise KeyError
      | Some value =>
          match bump value with
          | Ok value' => Ok (<[i := <["Value" := value']> sensor]> data)
          | Raise e => Raise e
          end
      end
  end.

(** The statements of [update_fake_sensors], by source line. *)
Inductive pc : Type := L36 | L37 | L38 | L39.

(** The process: the updater thread, at a statement or dead of an
    exception, and the shared list. *)
Record system : Type := {
  updater : result pc;
  data : list (gmap string string)
}.

(** What a step of the process shows. *)
Inductive label : Type :=
  | Assigned (i : nat)
  | Slept (seconds : Z)
  | Crashed (e : exn)
  | Idle
  | Served (code : Z) (body : list (gmap string string)).

Definition assign (i : nat) (next : pc) (sys : system) : system * label :=
  match update_sensor i (data sys) with
  | Ok d => ({| updater := Ok next; data := d |}, Assigned i)
  | Raise e => ({| updater := Raise e; data := data sys |}, Crashed e)
  end.

(** One statement of the updater thread; [time.sleep] returns after
    [REFRESH_RATE] seconds and the loop starts over. *)
Definition updater_step (sys : system) : system * label :=
  match updater sys with
  | Ok L36 => assign 0 L37 sys
  | Ok L37 => assign 1 L38 sys
  | Ok L38 => assign 2 L39 sys
  | Ok L39 => ({| updater := Ok L36; data := data sys |}, Slept REFRESH_RATE)
  | Raise _ => (sys, Idle)
  end.

(** [data_json()]: [jsonify(sensors_data)], HTTP 200. *)
Definition data_json (sys : system) : system * label :=
  (sys, Served 200 (data sys)).

(** The scheduler lets the updater thread run one statement, or the server
    answer one GET of [/data.json]. *)
Inductive event : Type := Upd | Get.

Definition step (ev : event) (sys : system) : system * label :=
  match ev with
  | Upd => updater_step sys
  | Get => data_json sys
  end.

Fixpoint run (evs : list event) (sys : system) : system * list label :=
  match evs with
  | [] => (sys, [])
  | ev :: rest =>
      let (sys', l) := step ev sys in
      let (sys'', ls) := run rest sys' in
      (sys'', l :: ls)
  end.

(** [__main__]: the thread is started on the initial list, then the server
    runs. *)
Definition main : system := {| updater := Ok L36; data := sensors_data |}.

(** One pass of the loop body, lines 36 to 38. *)
Definition pass (d : list (gmap string string))
  : result (list (gmap string string)) :=
  match update_sensor 0 d with
  | Raise e => Raise e
  | Ok d1 =>
      match update_sensor 1 d1 with
      | Raise e => Raise e
      | Ok d2 => update_sensor 2 d2
      end
  end.

(** The list after [n] turns of the [while True] loop, or the exception
    that ended the loop. *)
Definition passes (n : N) (d : list (gmap string string))
  : result (list (gmap string string)) :=
  N.iter n (fun r => match r with Ok d' => pass d' | Raise e => Raise e end)
         (Ok d).

(** The number of statements the updater thread is given. *)
Fixpoint updater_turns (evs : list event) : nat :=
  match evs with
  | [] => O
  | Upd :: rest => S (updater_turns rest)
  | Get :: rest => updater_turns rest
  end.

(** The [Value] fields of a reply, in order. *)
Definition values (d : list (gmap string string)) : list (option string) :=
  map (fun sensor => sensor !! "Value") d.

(** Digits, a point and one digit: the shape of a number printed with
    one decimal place. *)
Definition one_decimal_digit (s : string) : bool :=
  match rev (list_ascii_of_string s) with
  | d :: "."%char :: c :: ip => is_digit_char d && forallb is_digit_char (c :: ip)
  | _ => false
  end.

(** The [Value]s a reply shows when the updater has run [n] statements of
    its first pass. *)
Definition first_pass_values (n : nat) : list (option string) :=
  match n with
  | 0%nat => [Some "88.0"; Some "20.0"; Some "11.0"]
  | 1%nat => [Some "88.1"; Some "20.0"; Some "11.0"]
  | 2%nat => [Some "88.1"; Some "20.1"; Some "11.0"]
  | _ => [Some "88.1"; Some "20.1"; Some "11.1"]
  end.

(** The text of [k] tenths with one decimal digit. *)
Definition tenths (k : N) : string :=
  string_of_list_ascii
    (decimal_of_N (k / 10) ++ "."%char :: digit_char (k mod 10) :: []).

(** The first number of tenths whose successor the updater misses:
    [2^48 + 0.6]. *)
Definition first_skip : N := 10 * 2 ^ 48 + 6.

(** The bound under which every [Value] stays: [2^54]. *)
Definition value_bound : N := 10 * 2 ^ 54.

(** The invariant of the list: three sensors, each with a [Value] of some
    number of tenths under [value_bound]; and the thread is alive. *)
Definition bounded_tenths (s : gmap string string) : Prop :=
  exists k, s !! "Value" = Some (tenths k) /\ (k <= value_bound)%N.

Definition well_formed (sys : system) : Prop :=
  (exists p, updater sys = Ok p) /\
  exists s0 s1 s2, data sys = [s0; s1; s2] /\
    bounded_tenths s0 /\ bounded_tenths s1 /\ bounded_tenths s2.

(** The states of the process during the first pass. *)
Definition during_first_pass (j : nat) : system :=
  fst (run (replicate j Upd) main).

(** Kinds of labels. *)
Definition is_assigned (l : label) : bool :=
  match l with Assigned _ => true | _ => false end.

Definition is_slept (l : label) : bool :=
  match l with Slept _ => true | _ => false end.

Definition is_crashed (l : label) : bool :=
  match l with Crashed _ => true | _ => false end.

(** A sensor whose [Value] is a text with one decimal digit that [float]
    accepts. *)
Definition value_ok (s : gmap string string) : bool :=
  match s !! "Value" with
  | Some v =>
      one_decimal_digit v &&
      match py_float v with Ok _ => true | Raise _ => false end
  | None => false
  end.

(** *** Vocabulary of the further properties *)

(** The statement the updater is at after [r] statements of a turn of the
    loop. *)
Definition pc_of (r : nat) : pc :=
  match r with
  | 0%nat => L36
  | 1%nat => L37
  | 2%nat => L38
  | _ => L39
  end.

(** The [Value]s after [t] statements of the updater, while every pass
    adds one tenth: [t / 4] whole turns of the loop, and the first
    [t mod 4] sensors once more. *)
Definition values_after (t : nat) : list (option string) :=
  let n := N.of_nat (t / 4) in
  let r := (t mod 4)%nat in
  [Some (tenths (880 + n + (if (1 <=? r)%nat then 1 else 0)));
   Some (tenths (200 + n + (if (2 <=? r)%nat then 1 else 0)));
   Some (tenths (110 + n + (if (3 <=? r)%nat then 1 else 0)))]%N.

(** The number of updater statements up to which every pass adds one
    tenth: four for each of the 2814749767105686 passes before the first
    sensor reaches [first_skip]. *)
Definition exact_turns : N := 4 * 2814749767105686.

(** A sensor whose [Value] is a text [float] accepts. *)
Definition parsable (s : gmap string string) : bool :=
  match s !! "Value" with
  | Some v => match py_float v with Ok _ => true | Raise _ => false end
  | None => false
  end.

(** The keys of a fake sensor. *)
Definition sensor_keys : gset string :=
  {[ "Text"; "Type"; "Value"; "SensorId" ]}%string.

(** A reply of [/data.json] as documented: 200, three objects, each with
    the four keys. *)
Definition reply_ok (l : label) : Prop :=
  match l with
  | Served code body =>
      code = 200 /\ length body = 3%nat /\
      Forall (fun s : gmap string string => dom s = sensor_keys) body
  | _ => True
  end.

(** A sensor whose [Value], if it has one, is ASCII text, on which [float]
    is modelled exactly. *)
Definition ascii_value (s : gmap string string) : bool :=
  match s !! "Value" with
  | Some v => forallb (fun c => (N_of_ascii c <? 128)%N) (list_ascii_of_string v)
  | None => true
  end.

(** The [Value] the updater leaves for a sensor it has visited once. *)
Definition bumped (v : option string) : option string :=
  match v with
  | Some s => match bump s with Ok w => Some w | Raise _ => Some s end
  | None => None
  end.



Definition broken_sensors : list (gmap string string) :=
  [ {[ "Text" := "a"; "Value" := "88.0" ]}; {[ "Text" := "b"; "Value" := "n/a" ]};
    {[ "Text" := "c"; "Value" := "11.0" ]} ]%string.

End Emulator.

(** * Facts and claims *)

(** ** Binary64: rounding *)

Module Binary64Facts.
Import Binary64.
Local Open Scope Q_scope.

Lemma round_half_even_cases (q : Q) :
  (round_half_even q = Qfloor q /\ q - inject_Z (Qfloor q) <= 1 # 2) \/
  (round_half_even q = (Qfloor q + 1)%Z /\ 1 # 2 <= q - inject_Z (Qfloor q)).
Proof.
  unfold round_half_even.
  destruct (q - inject_Z (Qfloor q) ?= 1 # 2) eqn:E.
  - apply Qeq_alt in E. destruct (Z.even (Qfloor q)); [left | right]; split; auto; lra.
  - apply Qlt_alt in E. left; split; auto; lra.
  - apply Qgt_alt in E. right; split; auto; lra.
Qed.

Lemma floor_bounds (q : Q) : inject_Z (Qfloor q) <= q /\ q < inject_Z (Qfloor q) + 1.
Proof.
  split; [apply Qfloor_le |].
  pose proof (Qlt_floor q) as H. rewrite inject_Z_plus in H.
  change (inject_Z 1) with 1 in H. exact H.
Qed.

Lemma round_half_even_error (q : Q) :
  - (1 # 2) <= inject_Z (round_half_even q) - q <= 1 # 2.
Proof.
  destruct (floor_bounds q) as [H1 H2].
  destruct (round_half_even_cases q) as [[-> H] | [-> H]].
  - lra.
  - rewrite inject_Z_plus. change (inject_Z 1) with 1. lra.
Qed.

Lemma inject_Z_lt_inv (a b : Z) : inject_Z a < inject_Z b -> (a < b)%Z.
Proof. rewrite <- Zlt_Qlt. auto. Qed.

Lemma round_half_even_near (q : Q) (n : Z) :
  - (1 # 2) < q - inject_Z n < 1 # 2 -> round_half_even q = n.
Proof.
  intros [Ha Hb].
  pose proof (round_half_even_error q) as [H1 H2].
  assert (inject_Z (round_half_even q) < inject_Z (n + 1)) as A
    by (rewrite inject_Z_plus; change (inject_Z 1) with 1; lra).
  assert (inject_Z (n - 1) < inject_Z (round_half_even q)) as B
    by (unfold Z.sub; rewrite inject_Z_plus, inject_Z_opp;
        change (inject_Z 1) with 1; lra).
  apply inject_Z_lt_inv in A, B. lia.
Qed.

Lemma round_half_even_le (q : Q) (n : Z) :
  q <= inject_Z n -> (round_half_even q <= n)%Z.
Proof.
  intros H.
  destruct (floor_bounds q) as [H1 H2].
  destruct (round_half_even_cases q) as [[-> _] | [-> Hh]].
  - rewrite Zle_Qle. lra.
  - assert (inject_Z (Qfloor q) < inject_Z n) as A by lra.
    apply inject_Z_lt_inv in A. lia.
Qed.

Lemma round_half_even_ge (q : Q) (n : Z) :
  inject_Z n <= q -> (n <= round_half_even q)%Z.
Proof.
  intros H.
  destruct (floor_bounds q) as [H1 H2].
  assert (inject_Z n < inject_Z (Qfloor q + 1)) as A
    by (rewrite inject_Z_plus; change (inject_Z 1) with 1; lra).
  apply inject_Z_lt_inv in A.
  destruct (round_half_even_cases q) as [[-> _] | [-> _]]; lia.
Qed.

Lemma pow2_pos (e : Z) : 0 < pow2 e.
Proof. apply Qpower_0_lt. reflexivity. Qed.

Lemma pow2_add (a b : Z) : pow2 (a + b) == pow2 a * pow2 b.
Proof. apply Qpower_plus. discriminate. Qed.

Lemma pow2_le (a b : Z) : (a <= b)%Z -> pow2 a <= pow2 b.
Proof. intros H. apply Qpower_le_compat_l; [exact H | discriminate]. Qed.

Lemma pow2_lt_inv (a b : Z) : pow2 a < pow2 b -> (a < b)%Z.
Proof. intros H. apply (Qpower_lt_compat_l_inv 2); [exact H | reflexivity]. Qed.

Lemma pow2_Z (n : Z) : (0 <= n)%Z -> pow2 n == inject_Z (2 ^ n).
Proof. intros H. unfold pow2. rewrite Zpower_Qpower by exact H. reflexivity. Qed.

Lemma pow2_succ (a : Z) : pow2 (a + 1) == 2 * pow2 a.
Proof. rewrite pow2_add. change (pow2 1) with 2. ring. Qed.

(** Bounds of a positive integer by powers of two, in [Q]. *)
Lemma log2_bounds (n : Z) :
  (0 < n)%Z ->
  pow2 (Z.log2 n) <= inject_Z n /\ inject_Z n < pow2 (Z.log2 n + 1).
Proof.
  intros H. destruct (Z.log2_spec n H) as [H1 H2].
  pose proof (Z.log2_nonneg n) as H0.
  rewrite !pow2_Z by lia. rewrite <- Zle_Qle, <- Zlt_Qlt.
  replace (Z.log2 n + 1)%Z with (Z.succ (Z.log2 n)) by lia. auto.
Qed.

Lemma Qnum_den (q : Q) : inject_Z (Qnum q) == q * inject_Z (Zpos (Qden q)).
Proof.
  destruct q as [n d]. simpl. rewrite (Qmake_Qdiv n d). field.
  discriminate.
Qed.

Lemma ilog2_spec (q : Q) :
  0 < q -> pow2 (ilog2 q) <= q /\ q < pow2 (ilog2 q + 1).
Proof.
  intros Hq.
  assert (0 < Qnum q)%Z as Hn by (destruct q as [n d]; unfold Qlt in Hq; simpl in *; lia).
  destruct (log2_bounds (Qnum q) Hn) as [N1 N2].
  destruct (log2_bounds (Zpos (Qden q)) eq_refl) as [D1 D2].
  rewrite Qnum_den in N1, N2.
  set (a := Z.log2 (Qnum q)) in *. set (b := Z.log2 (Zpos (Qden q))) in *.
  set (d := inject_Z (Zpos (Qden q))) in *.
  assert (0 < d) as Hd by (unfold d; rewrite <- (Zlt_Qlt 0); lia).
  unfold ilog2. fold a b.
  destruct (Qle_bool (pow2 (a - b)) q) eqn:E.
  - apply Qle_bool_iff in E. split; [exact E |].
    (* q * d < 2^(a+1) and 2^b <= d *)
    apply (Qmult_lt_r _ _ (pow2 b)); [apply pow2_pos |].
    rewrite <- pow2_add. replace (a - b + 1 + b)%Z with (a + 1)%Z by lia.
    apply Qle_lt_trans with (q * d); [| exact N2].
    apply Qmult_le_l; [exact Hq | exact D1].
  - assert (~ pow2 (a - b) <= q) as E'
      by (intros C; apply Qle_bool_iff in C; congruence).
    apply Qnot_le_lt in E'.
    split; [| replace (a - b - 1 + 1)%Z with (a - b)%Z by lia; exact E'].
    apply (Qmult_le_r _ _ (pow2 (b + 1))); [apply pow2_pos |].
    rewrite <- pow2_add. replace (a - b - 1 + (b + 1))%Z with a by lia.
    apply Qle_trans with (q * d); [exact N1 |].
    apply Qmult_le_l; [exact Hq | apply Qlt_le_weak; exact D2].
Qed.

Lemma ilog2_unique (q : Q) (l : Z) :
  pow2 l <= q -> q < pow2 (l + 1) -> ilog2 q = l.
Proof.
  intros H1 H2.
  assert (0 < q) as Hq by (pose proof (pow2_pos l); lra).
  destruct (ilog2_spec q Hq) as [S1 S2].
  assert (pow2 (ilog2 q) < pow2 (l + 1)) as A by lra.
  assert (pow2 l < pow2 (ilog2 q + 1)) as B by lra.
  apply pow2_lt_inv in A, B. lia.
Qed.

Lemma ilog2_le (q : Q) (p : Z) : 0 < q -> q < pow2 (p + 1) -> (ilog2 q <= p)%Z.
Proof.
  intros Hq H. destruct (ilog2_spec q Hq) as [S1 _].
  assert (pow2 (ilog2 q) < pow2 (p + 1)) as A by lra.
  apply pow2_lt_inv in A. lia.
Qed.

Lemma RN_zero (q : Q) : q == 0 -> RN q = 0.
Proof.
  intros H. unfold RN. apply Qeq_bool_iff in H. rewrite H. reflexivity.
Qed.

Lemma RN_pos (q : Q) :
  0 < q ->
  RN q = inject_Z (round_half_even (q / pow2 (ulp_exp q))) * pow2 (ulp_exp q).
Proof.
  intros H. unfold RN.
  destruct (Qeq_bool q 0) eqn:E; [| reflexivity].
  apply Qeq_bool_iff in E. lra.
Qed.

Lemma div_mul (q u : Q) : 0 < u -> q / u * u == q.
Proof. intros H. field. lra. Qed.

Lemma ulp_exp_le (q : Q) (p : Z) :
  0 < q -> q < pow2 (p + 1) -> (emin <= p - 52)%Z -> (ulp_exp q <= p - 52)%Z.
Proof.
  intros Hq H He. pose proof (ilog2_le q p Hq H).
  unfold ulp_exp, prec. lia.
Qed.

(** The rounding error is at most half a unit in the last place. *)
Lemma RN_error (q : Q) (p : Z) :
  0 < q -> q < pow2 (p + 1) -> (emin <= p - 52)%Z ->
  - pow2 (p - 53) <= RN q - q <= pow2 (p - 53).
Proof.
  intros Hq H He. rewrite (RN_pos q Hq).
  pose proof (ulp_exp_le q p Hq H He) as Hle.
  set (u := pow2 (ulp_exp q)).
  assert (0 < u) as Hu by apply pow2_pos.
  assert (u <= 2 * pow2 (p - 53)) as Hu2.
  { rewrite <- pow2_succ. apply pow2_le. lia. }
  pose proof (div_mul q u Hu) as Hz.
  set (z := q / u) in *.
  destruct (round_half_even_error z) as [E1 E2].
  set (r := inject_Z (round_half_even z)) in *.
  assert ((r - z) * u <= (1 # 2) * u) as A
    by (apply Qmult_le_compat_r; lra).
  assert (- (1 # 2) * u <= (r - z) * u) as B
    by (apply Qmult_le_compat_r; lra).
  assert ((r - z) * u == r * u - q) as C by (rewrite <- Hz; ring).
  lra.
Qed.

Lemma RN_nonneg (q : Q) : 0 <= q -> 0 <= RN q.
Proof.
  intros H. destruct (Qlt_le_dec 0 q) as [Hq | Hq].
  - rewrite (RN_pos q Hq).
    pose proof (pow2_pos (ulp_exp q)) as Hu.
    apply Qmult_le_0_compat; [| lra].
    rewrite <- (Zle_Qle 0). apply round_half_even_ge.
    apply Qle_shift_div_l; [exact Hu |].
    change (inject_Z 0) with 0. lra.
  - rewrite RN_zero by lra. lra.
Qed.

(** Rounding does not cross a multiple of the unit in the last place. *)
Lemma RN_le_grid (q : Q) (n : Z) :
  0 < q -> q <= inject_Z n * pow2 (ulp_exp q) ->
  RN q <= inject_Z n * pow2 (ulp_exp q).
Proof.
  intros Hq H. rewrite (RN_pos q Hq).
  pose proof (pow2_pos (ulp_exp q)) as Hu.
  apply Qmult_le_compat_r; [| lra].
  rewrite <- Zle_Qle. apply round_half_even_le.
  apply Qle_shift_div_r; [exact Hu | exact H].
Qed.

(** A power of two absorbs what lies less than half a unit above it. *)
Lemma RN_le_pow2 (q : Q) (p : Z) :
  0 < q -> q < pow2 p + pow2 (p - 53) -> (emin <= p - 52)%Z ->
  RN q <= pow2 p.
Proof.
  intros Hq H He.
  assert (pow2 (p - 52) == 2 * pow2 (p - 53)) as P1
    by (rewrite <- pow2_succ; replace (p - 53 + 1)%Z with (p - 52)%Z by lia; reflexivity).
  assert (pow2 (p - 52) <= pow2 p) as P2 by (apply pow2_le; lia).
  pose proof (pow2_pos (p - 53)) as P3.
  pose proof (pow2_succ p) as P4.
  destruct (Qlt_le_dec q (pow2 p)) as [Hlt | Hge].
  - assert (ulp_exp q <= p - 52)%Z as Hle
      by (apply ulp_exp_le; [exact Hq | lra | lia]).
    assert (pow2 p == inject_Z (2 ^ (p - ulp_exp q)) * pow2 (ulp_exp q)) as G.
    { rewrite <- pow2_Z by lia. rewrite <- pow2_add.
      replace (p - ulp_exp q + ulp_exp q)%Z with p by lia. reflexivity. }
    rewrite G. apply RN_le_grid; [exact Hq |]. rewrite <- G. lra.
  - assert (ilog2 q = p) as Hl by (apply ilog2_unique; lra).
    assert (ulp_exp q = p - 52)%Z as Hu
      by (unfold ulp_exp, prec; rewrite Hl; lia).
    rewrite (RN_pos q Hq), Hu.
    set (u := pow2 (p - 52)) in *.
    assert (0 < u) as Hupos by apply pow2_pos.
    assert (pow2 p == inject_Z (2 ^ 52) * u) as G.
    { rewrite <- pow2_Z by lia. unfold u. rewrite <- pow2_add.
      replace (52 + (p - 52))%Z with p by lia. reflexivity. }
    pose proof (div_mul q u Hupos) as Hz.
    set (z := q / u) in *.
    assert (round_half_even z = (2 ^ 52)%Z) as R.
    { apply round_half_even_near. split.
      - apply Qlt_le_trans with 0; [reflexivity |].
        apply (Qmult_le_r _ _ u Hupos). lra.
      - apply (Qmult_lt_r _ _ u Hupos). lra. }
    rewrite R. lra.
Qed.

Lemma of_Q_finite (neg : bool) (q : Q) :
  RN q < pow2 emax -> of_Q neg q = Finite neg (Qred (RN q)).
Proof.
  intros H. unfold of_Q.
  destruct (Qle_bool (pow2 emax) (RN q)) eqn:E; [| reflexivity].
  apply Qle_bool_iff in E. lra.
Qed.

Lemma add_pos (p q : Q) :
  0 < p + q -> add (Finite false p) (Finite false q) = of_Q false (p + q).
Proof.
  intros H. unfold add, signed.
  apply Qgt_alt in H. rewrite H. reflexivity.
Qed.

Lemma pow2_49_emax : pow2 49 <= pow2 emax.
Proof. apply pow2_le. unfold emax. lia. Qed.

(** Below [2^48] a value of [k] tenths, read, increased by the double
    [tenth] and rounded again, is nearer to [k + 1] tenths than to any
    other number of tenths. *)
Lemma tenths_step (k : Z) (q : Q) :
  (0 <= k < 10 * 2 ^ 48)%Z -> q == inject_Z k * (1 # 10) ->
  exists y,
    add (of_Q false q) (Finite false tenth) = Finite false y /\
    round_half_even (y * 10) = (k + 1)%Z.
Proof.
  intros Hk Hq.
  assert (inject_Z 0 <= inject_Z k < inject_Z (10 * 2 ^ 48)) as Hk'
    by (rewrite <- Zle_Qle, <- Zlt_Qlt; lia).
  change (inject_Z (10 * 2 ^ 48)) with (2814749767106560 # 1) in Hk'.
  change (inject_Z 0) with 0 in Hk'.
  pose proof pow2_49_emax as Hmax.
  assert (pow2 49 == 562949953421312) as P49 by (vm_compute; reflexivity).
  assert (pow2 (47 + 1) == 281474976710656) as P48 by (vm_compute; reflexivity).
  assert (pow2 (48 + 1) == 562949953421312) as P49' by (vm_compute; reflexivity).
  assert (pow2 (47 - 53) == 1 # 64) as E6 by (vm_compute; reflexivity).
  assert (pow2 (48 - 53) == 1 # 32) as E5 by (vm_compute; reflexivity).
  assert (- (1 # 64) <= RN q - q <= 1 # 64 /\ 0 <= RN q) as [Ex X0].
  { split; [| apply RN_nonneg; lra].
    destruct (Qlt_le_dec 0 q) as [Hpos | Hz].
    - rewrite <- E6. apply RN_error; [exact Hpos | lra | unfold emin; lia].
    - rewrite RN_zero by lra. lra. }
  pose proof (Qred_correct (RN q)) as Rx.
  set (x := Qred (RN q)) in *.
  set (s := x + tenth).
  assert (tenth == 3602879701896397 # 36028797018963968) as Ht by reflexivity.
  assert (0 < s) as Hs by (unfold s; lra).
  assert (- (1 # 32) <= RN s - s <= 1 # 32) as Ey.
  { rewrite <- E5. apply RN_error; [exact Hs | unfold s; lra | unfold emin; lia]. }
  exists (Qred (RN s)).
  pose proof (Qred_correct (RN s)) as Ry.
  split.
  { rewrite (of_Q_finite false q) by lra. fold x.
    rewrite add_pos by exact Hs. fold s.
    apply of_Q_finite. unfold s in *. lra. }
  apply round_half_even_near. rewrite inject_Z_plus.
  change (inject_Z 1) with 1. unfold s in *. lra.
Qed.

(** Up to [2^54] the same computation stays below [2^54]: there one tenth
    is less than half a unit in the last place. *)
Lemma tenths_bounded (k : Z) (q : Q) :
  (0 <= k <= 10 * 2 ^ 54)%Z -> q == inject_Z k * (1 # 10) ->
  exists y,
    add (of_Q false q) (Finite false tenth) = Finite false y /\
    (0 <= round_half_even (y * 10) <= 10 * 2 ^ 54)%Z.
Proof.
  intros Hk Hq.
  assert (inject_Z 0 <= inject_Z k <= inject_Z (10 * 2 ^ 54)) as Hk'
    by (rewrite <- !Zle_Qle; lia).
  change (inject_Z (10 * 2 ^ 54)) with (180143985094819840 # 1) in Hk'.
  change (inject_Z 0) with 0 in Hk'.
  assert (pow2 55 <= pow2 emax) as Hmax by (apply pow2_le; unfold emax; lia).
  assert (pow2 55 == 36028797018963968) as P55 by (vm_compute; reflexivity).
  assert (pow2 54 == 18014398509481984) as P54 by (vm_compute; reflexivity).
  assert (pow2 (54 - 53) == 2) as P1 by (vm_compute; reflexivity).
  assert (0 <= RN q <= pow2 54) as [X0 X1].
  { split; [apply RN_nonneg; lra |].
    destruct (Qlt_le_dec 0 q) as [Hpos | Hz].
    - apply RN_le_pow2; [exact Hpos | lra | unfold emin; lia].
    - rewrite RN_zero by lra. lra. }
  pose proof (Qred_correct (RN q)) as Rx.
  set (x := Qred (RN q)) in *.
  set (s := x + tenth).
  assert (tenth == 3602879701896397 # 36028797018963968) as Ht by reflexivity.
  assert (0 < s) as Hs by (unfold s; lra).
  assert (0 <= RN s <= pow2 54) as [Y0 Y1].
  { split; [apply RN_nonneg; lra |].
    apply RN_le_pow2; [exact Hs | unfold s in *; lra | unfold emin; lia]. }
  exists (Qred (RN s)).
  pose proof (Qred_correct (RN s)) as Ry.
  split.
  { rewrite (of_Q_finite false q) by lra. fold x.
    rewrite add_pos by exact Hs. fold s.
    apply of_Q_finite. unfold s in *. lra. }
  split.
  - apply round_half_even_ge. change (inject_Z 0) with 0. lra.
  - apply round_half_even_le.
    change (inject_Z (10 * 2 ^ 54)) with (180143985094819840 # 1). lra.
Qed.

End Binary64Facts.

(** ** Decimal text *)

Module PyTextFacts.
Import Binary64 PyText Binary64Facts.
Local Open Scope N_scope.

Lemma digit_cases (d : N) :
  is_digit d ->
  d = 0 \/ d = 1 \/ d = 2 \/ d = 3 \/ d = 4 \/
  d = 5 \/ d = 6 \/ d = 7 \/ d = 8 \/ d = 9.
Proof. unfold is_digit. lia. Qed.

Ltac each_digit H :=
  apply digit_cases in H;
  repeat (destruct H as [H | H]); subst.

Lemma digit_of_digit_char (d : N) : is_digit d -> digit_of (digit_char d) = Some d.
Proof. intros H. each_digit H; reflexivity. Qed.

Lemma is_space_digit_char (d : N) : is_digit d -> is_space (digit_char d) = false.
Proof. intros H. each_digit H; reflexivity. Qed.

Lemma read_sign_digit (d : N) (l : list ascii) :
  is_digit d -> read_sign (digit_char d :: l) = (false, digit_char d :: l).
Proof. intros H. each_digit H; reflexivity. Qed.

Lemma is_keyword_digit (w : string) (d : N) (l : list ascii) :
  is_digit d -> w = "inf"%string \/ w = "infinity"%string \/ w = "nan"%string ->
  is_keyword w (digit_char d :: l) = false.
Proof.
  intros H Hw. unfold is_keyword.
  destruct Hw as [-> | [-> | ->]]; each_digit H; reflexivity.
Qed.

Lemma dval_app (a b : list N) (acc : N) : dval (a ++ b) acc = dval b (dval a acc).
Proof. unfold dval. apply fold_left_app. Qed.

Lemma digits_fuel_S (f : nat) (n : N) (acc : list ascii) :
  digits_fuel (S f) n acc =
  if n <? 10 then digit_char (n mod 10) :: acc
  else digits_fuel f (n / 10) (digit_char (n mod 10) :: acc).
Proof. reflexivity. Qed.

Lemma digits_fuel_spec (f : nat) :
  forall (n : N) (acc : list ascii),
    n < 2 ^ N.of_nat (S f) ->
    exists dl, dl <> [] /\ Forall is_digit dl /\
               digits_fuel (S f) n acc = map digit_char dl ++ acc /\
               dval dl 0 = n.
Proof.
  induction f as [| f IH]; intros n acc Hn;
    rewrite digits_fuel_S; destruct (N.ltb_spec n 10) as [Hlt | Hge].
  - exists [n]. rewrite N.mod_small by exact Hlt.
    split; [discriminate |].
    split; [repeat constructor; exact Hlt |].
    split; [reflexivity | cbn; lia].
  - change (2 ^ N.of_nat 1) with 2 in Hn. lia.
  - exists [n]. rewrite N.mod_small by exact Hlt.
    split; [discriminate |].
    split; [repeat constructor; exact Hlt |].
    split; [reflexivity | cbn; lia].
  - assert (n / 10 < 2 ^ N.of_nat (S f)) as Hdiv.
    { rewrite Nat2N.inj_succ, N.pow_succ_r' in Hn.
      apply N.Div0.div_lt_upper_bound. lia. }
    destruct (IH (n / 10) (digit_char (n mod 10) :: acc) Hdiv)
      as (dl & Hne & Hall & Heq & Hval).
    exists (dl ++ [n mod 10]).
    split; [| split; [| split]].
    + destruct dl; discriminate.
    + apply Forall_app. split; [exact Hall |].
      repeat constructor. unfold is_digit. apply N.mod_lt. lia.
    + rewrite Heq, map_app, <- app_assoc. reflexivity.
    + rewrite dval_app, Hval. cbn.
      pose proof (N.div_mod n 10). lia.
Qed.

Lemma decimal_of_N_spec (n : N) :
  exists dl, dl <> [] /\ Forall is_digit dl /\
             decimal_of_N n = map digit_char dl /\ dval dl 0 = n.
Proof.
  unfold decimal_of_N.
  destruct (digits_fuel_spec (N.to_nat (N.log2 n)) n []) as (dl & H1 & H2 & H3 & H4).
  - rewrite Nat2N.inj_succ, N2Nat.id.
    destruct (N.eq_dec n 0) as [-> | Hn]; [reflexivity |].
    apply N.log2_spec. lia.
  - exists dl. rewrite app_nil_r in H3. auto.
Qed.

Lemma digitpart_tail_digits (dl : list N) :
  forall (rest : list ascii) (acc : N) (cnt : nat),
    Forall is_digit dl ->
    digitpart_tail (map digit_char dl ++ rest) acc cnt =
    digitpart_tail rest (dval dl acc) (cnt + length dl)%nat.
Proof.
  induction dl as [| d dl IH]; intros rest acc cnt H.
  - cbn. rewrite Nat.add_0_r. reflexivity.
  - inversion H as [| ? ? Hd Hdl]; subst.
    cbn [map app digitpart_tail]. rewrite (digit_of_digit_char d Hd).
    rewrite IH by exact Hdl. cbn [length dval fold_left].
    f_equal. lia.
Qed.

Lemma lstrip_digit (d : N) (l : list ascii) :
  is_digit d -> lstrip (digit_char d :: l) = digit_char d :: l.
Proof. intros H. cbn [lstrip]. rewrite is_space_digit_char by exact H. reflexivity. Qed.

Lemma strip_digits (d0 d1 : N) (l : list ascii) :
  is_digit d0 -> is_digit d1 ->
  strip (digit_char d0 :: l ++ [digit_char d1]) = digit_char d0 :: l ++ [digit_char d1].
Proof.
  intros H0 H1. unfold strip. rewrite lstrip_digit by exact H0.
  change (digit_char d0 :: l ++ [digit_char d1])
    with ((digit_char d0 :: l) ++ [digit_char d1]).
  generalize (digit_char d0 :: l). intros L.
  rewrite rev_app_distr. cbn [rev app].
  rewrite lstrip_digit by exact H1.
  cbn [rev]. rewrite rev_involutive. reflexivity.
Qed.

(** [float] on a text made of digits, a point and one digit. *)
Lemma py_float_fixed1 (d0 d1 : N) (dl : list N) :
  is_digit d0 -> Forall is_digit dl -> is_digit d1 ->
  exists q,
    py_float (string_of_list_ascii
                (map digit_char (d0 :: dl) ++ "."%char :: digit_char d1 :: [])) =
    Ok (of_Q false q) /\
    (q == inject_Z (Z.of_N (10 * dval (d0 :: dl) 0 + d1)) * (1 # 10))%Q.
Proof.
  intros H0 Hl H1.
  exists (inject_Z (Z.of_N (dval dl d0 * 10 ^ N.of_nat 1 + d1)) *
          10 ^ (0 - Z.of_nat 1))%Q.
  split.
  - unfold py_float. rewrite list_ascii_of_string_of_list_ascii.
    cbn [map app].
    replace (map digit_char dl ++ ["."%char; digit_char d1])
      with ((map digit_char dl ++ ["."%char]) ++ [digit_char d1])
      by (rewrite <- app_assoc; reflexivity).
    rewrite strip_digits by assumption.
    rewrite read_sign_digit by assumption.
    rewrite !is_keyword_digit by auto.
    cbn [orb].
    unfold read_number, read_digitpart.
    rewrite digit_of_digit_char by assumption.
    rewrite <- app_assoc.
    rewrite digitpart_tail_digits by assumption.
    cbn [app digitpart_tail]. 
    change (digit_of ".") with (@None N).
    change (Ascii.eqb "." "_") with false. cbn iota.
    rewrite digit_of_digit_char by assumption.
    reflexivity.
  - change (10 ^ N.of_nat 1) with 10. change (10 ^ (0 - Z.of_nat 1))%Q with (1 # 10)%Q.
    replace (dval (d0 :: dl) 0) with (dval dl d0)
      by (cbn; rewrite N.add_0_l; reflexivity).
    rewrite N.mul_comm. reflexivity.
Qed.

Lemma lit_0_1_eq : lit_0_1 = Finite false tenth.
Proof. vm_compute. reflexivity. Qed.

End PyTextFacts.

Module BumpFacts.
Import Binary64 PyText Binary64Facts PyTextFacts Emulator.
Local Open Scope N_scope.

Lemma py_float_tenths (k : N) :
  exists q, py_float (tenths k) = Ok (of_Q false q) /\
            (q == inject_Z (Z.of_N k) * (1 # 10))%Q.
Proof.
  unfold tenths.
  destruct (decimal_of_N_spec (k / 10)) as (dl & Hne & Hall & Heq & Hval).
  destruct dl as [| d0 dl]; [congruence |].
  inversion Hall as [| ? ? H0 Hl]; subst.
  assert (is_digit (k mod 10)) as H1 by (apply N.mod_lt; lia).
  destruct (py_float_fixed1 d0 (k mod 10) dl H0 Hl H1) as (q & Hq & Hv).
  exists q. rewrite Heq. split; [exact Hq |].
  rewrite Hv, Hval.
  replace (10 * (k / 10) + k mod 10) with k
    by (pose proof (N.div_mod k 10); lia).
  reflexivity.
Qed.

Lemma format_1f_tenths (y : Q) :
  format_1f (Finite false y) = tenths (Z.to_N (round_half_even (y * 10))).
Proof. reflexivity. Qed.

(** Below [2^48] the new text of a [Value] is the next number of tenths. *)
Lemma bump_below_2_48 (k : N) :
  k < 10 * 2 ^ 48 -> bump (tenths k) = Ok (tenths (k + 1)).
Proof.
  intros Hk. unfold bump.
  destruct (py_float_tenths k) as (q & -> & Hq).
  destruct (tenths_step (Z.of_N k) q) as (y & Hy & Hr); [lia | exact Hq |].
  rewrite lit_0_1_eq, Hy, format_1f_tenths, Hr.
  do 2 f_equal. lia.
Qed.

Lemma bump_from_2_48 :
  bump (tenths (10 * 2 ^ 48)) = Ok (tenths (10 * 2 ^ 48 + 1)) /\
  bump (tenths (10 * 2 ^ 48 + 1)) = Ok (tenths (10 * 2 ^ 48 + 2)) /\
  bump (tenths (10 * 2 ^ 48 + 2)) = Ok (tenths (10 * 2 ^ 48 + 3)) /\
  bump (tenths (10 * 2 ^ 48 + 3)) = Ok (tenths (10 * 2 ^ 48 + 4)) /\
  bump (tenths (10 * 2 ^ 48 + 4)) = Ok (tenths (10 * 2 ^ 48 + 5)) /\
  bump (tenths (10 * 2 ^ 48 + 5)) = Ok (tenths (10 * 2 ^ 48 + 6)).
Proof. vm_compute. repeat split; reflexivity. Qed.

Lemma bump_exact (k : N) :
  k < first_skip -> bump (tenths k) = Ok (tenths (k + 1)).
Proof.
  intros Hk. unfold first_skip in Hk.
  destruct (N.lt_ge_cases k (10 * 2 ^ 48)) as [Hlt | Hge].
  - apply bump_below_2_48. exact Hlt.
  - destruct bump_from_2_48 as (B0 & B1 & B2 & B3 & B4 & B5).
    assert (k = 10 * 2 ^ 48 \/ k = 10 * 2 ^ 48 + 1 \/ k = 10 * 2 ^ 48 + 2 \/
            k = 10 * 2 ^ 48 + 3 \/ k = 10 * 2 ^ 48 + 4 \/ k = 10 * 2 ^ 48 + 5)
      as H by lia.
    destruct H as [-> | [-> | [-> | [-> | [-> | ->]]]]];
      rewrite <- ?N.add_assoc; assumption.
Qed.

Lemma bump_first_skip :
  bump (tenths first_skip) = Ok (tenths (first_skip + 2)).
Proof. vm_compute. reflexivity. Qed.

Lemma bump_bounded (k : N) :
  k <= value_bound ->
  exists k', k' <= value_bound /\ bump (tenths k) = Ok (tenths k').
Proof.
  unfold value_bound. intros Hk. unfold bump.
  destruct (py_float_tenths k) as (q & -> & Hq).
  destruct (tenths_bounded (Z.of_N k) q) as (y & Hy & Hr); [lia | exact Hq |].
  exists (Z.to_N (round_half_even (y * 10))).
  rewrite lit_0_1_eq, Hy, format_1f_tenths.
  split; [lia | reflexivity].
Qed.

End BumpFacts.

(** ** The emulator: runs and invariants *)

Module EmulatorFacts.
Import Binary64 PyText Emulator PyTextFacts BumpFacts.
Local Open Scope N_scope.

Lemma values_three (d : list (gmap string string)) (v0 v1 v2 : option string) :
  values d = [v0; v1; v2] ->
  exists s0 s1 s2, d = [s0; s1; s2] /\
    s0 !! "Value" = v0 /\ s1 !! "Value" = v1 /\ s2 !! "Value" = v2.
Proof.
  unfold values. intros H.
  destruct d as [| s0 [| s1 [| s2 [| s3 d]]]]; try discriminate.
  injection H as H0 H1 H2. exists s0, s1, s2. auto.
Qed.

Lemma update_sensor_ok (i : nat) (d : list (gmap string string))
      (s : gmap string string) (v w : string) :
  d !! i = Some s -> s !! "Value" = Some v -> bump v = Ok w ->
  update_sensor i d = Ok (<[i := <["Value" := w]> s]> d).
Proof. intros Hd Hs Hb. unfold update_sensor. rewrite Hd, Hs, Hb. reflexivity. Qed.

(** One pass on three sensors whose values can be bumped. *)
Lemma pass_three (s0 s1 s2 : gmap string string) (v0 v1 v2 w0 w1 w2 : string) :
  s0 !! "Value" = Some v0 -> s1 !! "Value" = Some v1 -> s2 !! "Value" = Some v2 ->
  bump v0 = Ok w0 -> bump v1 = Ok w1 -> bump v2 = Ok w2 ->
  pass [s0; s1; s2] =
  Ok [<["Value" := w0]> s0; <["Value" := w1]> s1; <["Value" := w2]> s2].
Proof.
  intros H0 H1 H2 B0 B1 B2. unfold pass.
  rewrite (update_sensor_ok 0 _ s0 v0 w0) by (assumption || reflexivity).
  rewrite (update_sensor_ok 1 _ s1 v1 w1) by (assumption || reflexivity).
  rewrite (update_sensor_ok 2 _ s2 v2 w2) by (assumption || reflexivity).
  reflexivity.
Qed.

Lemma values_updated (s0 s1 s2 : gmap string string) (w0 w1 w2 : string) :
  values [<["Value" := w0]> s0; <["Value" := w1]> s1; <["Value" := w2]> s2] =
  [Some w0; Some w1; Some w2].
Proof. unfold values. cbn [map]. rewrite !lookup_insert_eq. reflexivity. Qed.

Lemma pass_values (d : list (gmap string string)) (v0 v1 v2 w0 w1 w2 : string) :
  values d = [Some v0; Some v1; Some v2] ->
  bump v0 = Ok w0 -> bump v1 = Ok w1 -> bump v2 = Ok w2 ->
  exists d', pass d = Ok d' /\ values d' = [Some w0; Some w1; Some w2].
Proof.
  intros Hv B0 B1 B2.
  destruct (values_three d _ _ _ Hv) as (s0 & s1 & s2 & -> & H0 & H1 & H2).
  eexists. split; [apply (pass_three s0 s1 s2 v0 v1 v2 w0 w1 w2); assumption |].
  apply values_updated.
Qed.

(** Every key but [Value] is out of reach of the updater. *)
Lemma update_sensor_frame (i : nat) (d d' : list (gmap string string)) :
  update_sensor i d = Ok d' ->
  delete "Value" <$> d' = delete "Value" <$> d.
Proof.
  unfold update_sensor. intros H.
  destruct (d !! i) as [s |] eqn:Hd; [| discriminate].
  destruct (s !! "Value") as [v |]; [| discriminate].
  destruct (bump v) as [w | e]; [| discriminate].
  injection H as <-.
  rewrite list_fmap_insert, delete_insert_eq.
  apply list_insert_id. rewrite list_lookup_fmap, Hd. reflexivity.
Qed.

Lemma initial_values :
  values sensors_data = [Some (tenths 880); Some (tenths 200); Some (tenths 110)].
Proof. vm_compute. reflexivity. Qed.

Lemma passes_succ (n : N) (d : list (gmap string string)) :
  passes (N.succ n) d =
  match passes n d with Ok d' => pass d' | Raise e => Raise e end.
Proof. unfold passes. rewrite N.iter_succ. reflexivity. Qed.

(** Until the first sensor reaches [first_skip] tenths, [n] turns of the
    loop add [n] tenths to every sensor. *)
Lemma passes_values (n : N) :
  880 + n <= first_skip ->
  exists d, passes n sensors_data = Ok d /\
            values d = [Some (tenths (880 + n)); Some (tenths (200 + n));
                        Some (tenths (110 + n))].
Proof.
  induction n as [| n IH] using N.peano_ind; intros Hn.
  - exists sensors_data. split; [reflexivity | apply initial_values].
  - destruct IH as (d & Hd & Hv); [lia |].
    rewrite passes_succ, Hd.
    destruct (pass_values d _ _ _ (tenths (880 + n + 1)) (tenths (200 + n + 1))
                (tenths (110 + n + 1)) Hv) as (d' & Hp & Hv');
      try (apply bump_exact; lia).
    exists d'. split; [exact Hp |].
    rewrite Hv'.
    replace (880 + N.succ n) with (880 + n + 1) by lia.
    replace (200 + N.succ n) with (200 + n + 1) by lia.
    replace (110 + N.succ n) with (110 + n + 1) by lia.
    reflexivity.
Qed.

(** *** Runs of the process *)

Lemma run_cons (ev : event) (evs : list event) (sys : system) :
  run (ev :: evs) sys =
  (fst (run evs (fst (step ev sys))),
   snd (step ev sys) :: snd (run evs (fst (step ev sys)))).
Proof.
  cbn [run]. destruct (step ev sys) as [sys' l]. cbn [fst snd].
  destruct (run evs sys') as [sys'' ls]. reflexivity.
Qed.

Lemma run_app (evs1 evs2 : list event) (sys : system) :
  run (evs1 ++ evs2) sys =
  (fst (run evs2 (fst (run evs1 sys))),
   snd (run evs1 sys) ++ snd (run evs2 (fst (run evs1 sys)))).
Proof.
  revert sys. induction evs1 as [| ev evs1 IH]; intros sys.
  - cbn. destruct (run evs2 sys). reflexivity.
  - cbn [app]. rewrite !run_cons, IH. reflexivity.
Qed.

Lemma run_invariant (P : system -> Prop) :
  (forall ev sys, P sys -> P (fst (step ev sys))) ->
  forall evs sys, P sys -> P (fst (run evs sys)).
Proof.
  intros Hstep evs. induction evs as [| ev evs IH]; intros sys H.
  - exact H.
  - rewrite run_cons. cbn [fst]. apply IH, Hstep, H.
Qed.

(** A step that is not an assignment leaves the list as it is. *)
Lemma step_data (ev : event) (sys : system) :
  is_assigned (snd (step ev sys)) = false ->
  data (fst (step ev sys)) = data sys.
Proof.
  destruct ev; cbn [step]; [| reflexivity].
  unfold updater_step, assign.
  destruct (updater sys) as [[] | e]; try reflexivity;
    match goal with
    | |- context [update_sensor ?i ?d] =>
        destruct (update_sensor i d); cbn; [discriminate | reflexivity]
    end.
Qed.

Lemma run_data (evs : list event) :
  forall sys,
    existsb is_assigned (snd (run evs sys)) = false ->
    data (fst (run evs sys)) = data sys.
Proof.
  induction evs as [| ev evs IH]; intros sys H; [reflexivity |].
  rewrite run_cons in *. cbn [fst snd existsb] in *.
  apply orb_false_iff in H as [H1 H2].
  rewrite (IH _ H2). apply step_data, H1.
Qed.

Lemma step_frame (ev : event) (sys : system) :
  delete "Value" <$> data (fst (step ev sys)) = delete "Value" <$> data sys.
Proof.
  destruct ev; cbn [step]; [| reflexivity].
  unfold updater_step, assign.
  destruct (updater sys) as [[] | e]; try reflexivity;
    match goal with
    | |- context [update_sensor ?i ?d] =>
        destruct (update_sensor i d) eqn:E; cbn;
        [apply (update_sensor_frame i), E | reflexivity]
    end.
Qed.

(** One pass, statement by statement. *)
Lemma run_pass (d d' : list (gmap string string)) :
  pass d = Ok d' ->
  run [Upd; Upd; Upd] {| updater := Ok L36; data := d |} =
  ({| updater := Ok L39; data := d' |}, [Assigned 0; Assigned 1; Assigned 2]).
Proof.
  unfold pass. intros H. cbn. unfold assign. cbn.
  destruct (update_sensor 0 d) as [d1 | e]; [| discriminate]. cbn. unfold assign. cbn.
  destruct (update_sensor 1 d1) as [d2 | e]; [| discriminate]. cbn. unfold assign. cbn.
  rewrite H. reflexivity.
Qed.

Lemma bounded_tenths_bump (s : gmap string string) :
  bounded_tenths s ->
  exists w, (exists v, s !! "Value" = Some v /\ bump v = Ok w) /\
            bounded_tenths (<["Value" := w]> s).
Proof.
  intros (k & Hk & Hb).
  destruct (bump_bounded k Hb) as (k' & Hb' & Hbump).
  exists (tenths k'). split; [exists (tenths k); auto |].
  exists k'. rewrite lookup_insert_eq. auto.
Qed.

Lemma main_well_formed : well_formed main.
Proof.
  split; [exists L36; reflexivity |].
  eexists _, _, _. split; [reflexivity |].
  unfold bounded_tenths, value_bound.
  repeat split; [exists 880 | exists 200 | exists 110];
    (split; [vm_compute; reflexivity | lia]).
Qed.

Lemma step_well_formed (ev : event) (sys : system) :
  well_formed sys -> well_formed (fst (step ev sys)).
Proof.
  intros [[p Hp] (s0 & s1 & s2 & Hd & B0 & B1 & B2)].
  destruct ev; cbn [step]; [| split; [exists p; exact Hp | eauto 10]].
  unfold updater_step. rewrite Hp. destruct p.
  - destruct (bounded_tenths_bump s0 B0) as (w & (v & Hv & Hw) & B).
    unfold assign. rewrite Hd.
    rewrite (update_sensor_ok 0 _ s0 v w) by (assumption || reflexivity).
    split; [exists L37; reflexivity | cbn; eauto 10].
  - destruct (bounded_tenths_bump s1 B1) as (w & (v & Hv & Hw) & B).
    unfold assign. rewrite Hd.
    rewrite (update_sensor_ok 1 _ s1 v w) by (assumption || reflexivity).
    split; [exists L38; reflexivity | cbn; eauto 10].
  - destruct (bounded_tenths_bump s2 B2) as (w & (v & Hv & Hw) & B).
    unfold assign. rewrite Hd.
    rewrite (update_sensor_ok 2 _ s2 v w) by (assumption || reflexivity).
    split; [exists L39; reflexivity | cbn; eauto 10].
  - split; [exists L36; reflexivity | cbn; eauto 10].
Qed.

(** A well-formed process does not crash at its next step. *)
Lemma step_no_crash (ev : event) (sys : system) :
  well_formed sys -> is_crashed (snd (step ev sys)) = false.
Proof.
  intros Hwf. pose proof (step_well_formed ev sys Hwf) as [[p' Hp'] _].
  destruct ev; cbn [step] in *; [| reflexivity].
  unfold updater_step, assign in *.
  destruct (updater sys) as [[] | e0]; try reflexivity;
    match goal with
    | |- context [update_sensor ?i ?d] =>
        destruct (update_sensor i d); cbn in *; [reflexivity | discriminate]
    end.
Qed.

Lemma run_no_crash (evs : list event) :
  forall sys, well_formed sys -> existsb is_crashed (snd (run evs sys)) = false.
Proof.
  induction evs as [| ev evs IH]; intros sys Hwf; [reflexivity |].
  rewrite run_cons. cbn [snd existsb].
  rewrite (step_no_crash ev sys Hwf), (IH _ (step_well_formed ev sys Hwf)).
  reflexivity.
Qed.

Lemma one_decimal_digit_tenths (k : N) : one_decimal_digit (tenths k) = true.
Proof.
  unfold one_decimal_digit, tenths.
  rewrite list_ascii_of_string_of_list_ascii.
  destruct (decimal_of_N_spec (k / 10)) as (dl & Hne & Hall & -> & _).
  change (map digit_char dl ++ ["."%char; digit_char (k mod 10)])
    with (map digit_char dl ++ ["."%char] ++ [digit_char (k mod 10)]).
  rewrite !rev_app_distr. cbn [rev app].
  assert (forall d, is_digit d -> is_digit_char (digit_char d) = true) as Hc
    by (intros d Hdg; unfold is_digit_char; rewrite digit_of_digit_char by exact Hdg;
        reflexivity).
  assert (forallb is_digit_char (rev (map digit_char dl)) = true) as Hf.
  { apply forallb_forall. intros c Hin. apply in_rev, in_map_iff in Hin.
    destruct Hin as (d & <- & Hin). apply Hc.
    rewrite Forall_forall in Hall. apply Hall, list_elem_of_In, Hin. }
  destruct (rev (map digit_char dl)) as [| c ip] eqn:E.
  - apply (f_equal (@length ascii)) in E.
    rewrite length_rev, length_map in E. destruct dl; [congruence | discriminate].
  - rewrite Hc by (apply N.mod_lt; lia). exact Hf.
Qed.

Lemma bounded_tenths_ok (s : gmap string string) :
  bounded_tenths s -> value_ok s = true.
Proof.
  intros (k & Hk & _). unfold value_ok.
  rewrite Hk, one_decimal_digit_tenths.
  destruct (py_float_tenths k) as (q & -> & _). reflexivity.
Qed.

(** The frame of a run: every key but [Value] reads as in the initial
    list. *)
Lemma run_frame (evs : list event) :
  delete "Value" <$> data (fst (run evs main)) = delete "Value" <$> sensors_data.
Proof.
  apply (run_invariant
           (fun sys => delete "Value" <$> data sys = delete "Value" <$> sensors_data)).
  - intros ev sys H. rewrite step_frame. exact H.
  - reflexivity.
Qed.

Lemma lookup_through_delete (key : string) (l : list (gmap string string)) :
  key <> "Value"%string ->
  (fun s : gmap string string => s !! key) <$> l =
  (fun s : gmap string string => s !! key) <$> (delete "Value" <$> l).
Proof.
  intros Hk. rewrite <- list_fmap_compose. apply list_fmap_ext.
  intros i s _. cbn. rewrite lookup_delete_ne by congruence. reflexivity.
Qed.

End EmulatorFacts.

(** ** The emulator: settled claims *)

Module EmulatorClaims.
Import Binary64 PyText Emulator PyTextFacts BumpFacts EmulatorFacts.
Local Open Scope N_scope.

Lemma first_pass_steps :
  step Upd (during_first_pass 0) = (during_first_pass 1, Assigned 0) /\
  step Upd (during_first_pass 1) = (during_first_pass 2, Assigned 1) /\
  step Upd (during_first_pass 2) = (during_first_pass 3, Assigned 2).
Proof. vm_compute. repeat split; reflexivity. Qed.

Lemma first_pass_reply (j : nat) :
  (j <= 3)%nat ->
  length (data (during_first_pass j)) = 3%nat /\
  values (data (during_first_pass j)) = first_pass_values j.
Proof.
  intros Hj.
  assert (j = 0 \/ j = 1 \/ j = 2 \/ j = 3)%nat as H by lia.
  destruct H as [-> | [-> | [-> | ->]]]; vm_compute; split; reflexivity.
Qed.

Lemma first_pass_run (evs : list event) :
  forall j,
    (j + updater_turns evs <= 3)%nat ->
    fst (run evs (during_first_pass j)) = during_first_pass (j + updater_turns evs) /\
    existsb is_slept (snd (run evs (during_first_pass j))) = false.
Proof.
  induction evs as [| ev evs IH]; intros j Hj.
  - cbn. rewrite Nat.add_0_r. auto.
  - rewrite run_cons. cbn [fst snd]. destruct ev; cbn [updater_turns] in *.
    + destruct first_pass_steps as (S0 & S1 & S2).
      assert (step Upd (during_first_pass j) = (during_first_pass (S j), Assigned j)) as E.
      { assert (j = 0 \/ j = 1 \/ j = 2)%nat as H by lia.
        destruct H as [-> | [-> | ->]]; assumption. }
      rewrite E. cbn [fst snd].
      destruct (IH (S j)) as [IH1 IH2]; [lia |].
      split; [rewrite IH1; f_equal; lia | exact IH2].
    + cbn [step data_json fst snd].
      destruct (IH j Hj) as [IH1 IH2].
      split; [exact IH1 | exact IH2].
Qed.

(** Claim C2, as amended.  A GET of [/data.json] served before the updater
    has finished its first [time.sleep] (at most three updater statements
    have run, so no refresh interval has elapsed) is answered 200 with
    exactly three objects; their [Value]s are "88.0", "20.0", "11.0" only
    while no statement of the first pass has run, and "88.1", "20.1",
    "11.1" once the first pass, which precedes the first sleep, is over. *)
Theorem first_interval_reply (evs : list event) :
  (updater_turns evs <= 3)%nat ->
  exists ls b,
    snd (run (evs ++ [Get]) main) = ls ++ [Served 200 b] /\
    existsb is_slept ls = false /\
    length b = 3%nat /\
    values b = first_pass_values (updater_turns evs).
Proof.
  intros H.
  destruct (first_pass_run evs 0%nat H) as [E Hs].
  change (during_first_pass 0) with main in *. cbn [Nat.add] in E.
  destruct (first_pass_reply (updater_turns evs) H) as [Hl Hv].
  exists (snd (run evs main)), (data (during_first_pass (updater_turns evs))).
  rewrite run_app. cbn [snd]. rewrite E. cbn.
  auto.
Qed.

Lemma first_interval_reply_witness :
  (updater_turns [Upd; Upd; Upd] <= 3)%nat /\
  exists ls b,
    snd (run ([Upd; Upd; Upd] ++ [Get]) main) = ls ++ [Served 200 b] /\
    existsb is_slept ls = false /\
    length b = 3%nat /\
    values b = first_pass_values (updater_turns [Upd; Upd; Upd]).
Proof.
  split; [cbn; lia |].
  apply (first_interval_reply [Upd; Upd; Upd]). cbn. lia.
Defined.

(** Claim C2, as stated, fails: the thread is started before the server
    and its loop updates before it sleeps, so that the first GET, served
    although no refresh interval has elapsed, shows 88.1, 20.1, 11.1. *)
Lemma startup_read_counterexample :
  exists b,
    snd (run [Upd; Upd; Upd; Get] main) =
      [Assigned 0; Assigned 1; Assigned 2; Served 200 b] /\
    values b = [Some "88.1"; Some "20.1"; Some "11.1"]%string /\
    values b <> [Some "88.0"; Some "20.0"; Some "11.0"]%string.
Proof.
  eexists. split; [vm_compute; reflexivity |].
  split; [vm_compute; reflexivity | vm_compute; discriminate].
Qed.

(** Claim C6, as amended.  On a list whose [Value]s hold [k0], [k1], [k2]
    tenths, each fewer than [first_skip] (that is, each below
    281474976710656.6), one pass of the loop stores [k0 + 1], [k1 + 1],
    [k2 + 1] tenths, each printed with exactly one decimal digit; a GET
    before the sleep ends and a GET after the following pass show the
    two lists. *)
Theorem pass_adds_one_tenth (d : list (gmap string string)) (k0 k1 k2 : N) :
  values d = [Some (tenths k0); Some (tenths k1); Some (tenths k2)] ->
  k0 < first_skip -> k1 < first_skip -> k2 < first_skip ->
  exists d',
    pass d = Ok d' /\
    values d' = [Some (tenths (k0 + 1)); Some (tenths (k1 + 1));
                 Some (tenths (k2 + 1))] /\
    one_decimal_digit (tenths (k0 + 1)) = true /\
    one_decimal_digit (tenths (k1 + 1)) = true /\
    one_decimal_digit (tenths (k2 + 1)) = true /\
    snd (run [Get; Upd; Upd; Upd; Upd; Get] {| updater := Ok L39; data := d |}) =
      [Served 200 d; Slept 5; Assigned 0; Assigned 1; Assigned 2; Served 200 d'].
Proof.
  intros Hv H0 H1 H2.
  destruct (pass_values d _ _ _ _ _ _ Hv (bump_exact k0 H0) (bump_exact k1 H1)
              (bump_exact k2 H2)) as (d' & Hp & Hv').
  exists d'. rewrite !one_decimal_digit_tenths.
  repeat (split; [assumption || reflexivity |]).
  change [Get; Upd; Upd; Upd; Upd; Get] with ([Get; Upd] ++ [Upd; Upd; Upd] ++ [Get]).
  rewrite run_app.
  change (run [Get; Upd] {| updater := Ok L39; data := d |})
    with ({| updater := Ok L36; data := d |}, [Served 200 d; Slept 5]).
  cbn [fst snd]. rewrite run_app, (run_pass d d' Hp). reflexivity.
Qed.

Lemma pass_adds_one_tenth_witness :
  exists d',
    pass sensors_data = Ok d' /\
    values d' = [Some (tenths (880 + 1)); Some (tenths (200 + 1));
                 Some (tenths (110 + 1))] /\
    one_decimal_digit (tenths (880 + 1)) = true /\
    one_decimal_digit (tenths (200 + 1)) = true /\
    one_decimal_digit (tenths (110 + 1)) = true /\
    snd (run [Get; Upd; Upd; Upd; Upd; Get]
             {| updater := Ok L39; data := sensors_data |}) =
      [Served 200 sensors_data; Slept 5; Assigned 0; Assigned 1; Assigned 2;
       Served 200 d'].
Proof.
  apply (pass_adds_one_tenth sensors_data 880 200 110).
  - vm_compute. reflexivity.
  - vm_compute. reflexivity.
  - vm_compute. reflexivity.
  - vm_compute. reflexivity.
Defined.

(** Claim C6, as stated, fails, in two ways.  After 2814749767105686
    turns of the loop the first sensor holds 281474976710656.6; the next
    pass stores 281474976710656.8, two tenths more, because binary64 keeps
    only sixteenths of a unit from [2^48] on.  And a wait of at least five
    seconds may span two passes: the second read then shows two tenths
    more than the first. *)
Lemma pass_skips_a_tenth :
  (exists d d',
     passes 2814749767105686 sensors_data = Ok d /\
     values d = [Some "281474976710656.6"; Some "281474976710588.6";
                 Some "281474976710579.6"]%string /\
     pass d = Ok d' /\
     values d' = [Some "281474976710656.8"; Some "281474976710588.7";
                  Some "281474976710579.7"]%string) /\
  (exists b1 b2,
     snd (run [Get; Upd; Upd; Upd; Upd; Upd; Upd; Upd; Upd; Get]
              {| updater := Ok L39; data := sensors_data |}) =
       [Served 200 b1; Slept 5; Assigned 0; Assigned 1; Assigned 2;
        Slept 5; Assigned 0; Assigned 1; Assigned 2; Served 200 b2] /\
     values b1 = [Some "88.0"; Some "20.0"; Some "11.0"]%string /\
     values b2 = [Some "88.2"; Some "20.2"; Some "11.2"]%string).
Proof.
  split.
  - destruct (passes_values 2814749767105686) as (d & Hd & Hv);
      [vm_compute; discriminate |].
    change (880 + 2814749767105686) with first_skip in Hv.
    destruct (pass_values d _ _ _ _ _ _ Hv bump_first_skip
                (bump_exact (200 + 2814749767105686) eq_refl)
                (bump_exact (110 + 2814749767105686) eq_refl)) as (d' & Hp & Hv').
    exists d, d'. split; [exact Hd |].
    split; [rewrite Hv; vm_compute; reflexivity |].
    split; [exact Hp |]. rewrite Hv'. vm_compute. reflexivity.
  - eexists _, _. split; [vm_compute; reflexivity |].
    split; vm_compute; reflexivity.
Qed.

(** Claim C7.  The GET handler changes nothing, and two reads between
    which the updater made no assignment return the same reply. *)
Theorem reads_without_update_agree (evs : list event) (sys : system) :
  existsb is_assigned (snd (run evs sys)) = false ->
  step Get sys = (sys, Served 200 (data sys)) /\
  snd (run (Get :: evs ++ [Get]) sys) =
    Served 200 (data sys) :: snd (run evs sys) ++ [Served 200 (data sys)].
Proof.
  intros H. split; [reflexivity |].
  rewrite run_cons. cbn [step data_json fst snd]. f_equal.
  rewrite run_app. cbn [snd run step data_json fst].
  rewrite (run_data evs sys H). reflexivity.
Qed.

Lemma reads_without_update_agree_witness :
  existsb is_assigned (snd (run [Get; Upd; Get] (during_first_pass 3))) = false /\
  step Get (during_first_pass 3) =
    (during_first_pass 3, Served 200 (data (during_first_pass 3))) /\
  snd (run (Get :: [Get; Upd; Get] ++ [Get]) (during_first_pass 3)) =
    Served 200 (data (during_first_pass 3))
    :: snd (run [Get; Upd; Get] (during_first_pass 3))
    ++ [Served 200 (data (during_first_pass 3))].
Proof.
  split; [vm_compute; reflexivity |].
  apply (reads_without_update_agree [Get; Upd; Get] (during_first_pass 3)).
  vm_compute. reflexivity.
Defined.

(** Claim C8.  Whatever the updater and the GET handler do, in any order
    and for any length of time, the list keeps its three sensors, the
    Text, Type and SensorId of each keep their initial values, and so does
    every key other than [Value]. *)
Theorem only_value_mutated (evs : list event) :
  let d := data (fst (run evs main)) in
  length d = 3%nat /\
  (fun s : gmap string string => s !! "Text") <$> d =
    [Some "Fake Sensor 1"; Some "Fake Sensor 2"; Some "Fake Sensor 3"]%string /\
  (fun s : gmap string string => s !! "Type") <$> d =
    [Some "Temperature"; Some "Humidity"; Some "Pressure"]%string /\
  (fun s : gmap string string => s !! "SensorId") <$> d =
    [Some "fake_sensor_1"; Some "fake_sensor_2"; Some "fake_sensor_3"]%string /\
  delete "Value" <$> d = delete "Value" <$> sensors_data.
Proof.
  cbn zeta. pose proof (run_frame evs) as Inv.
  split.
  { apply (f_equal (@length _)) in Inv. rewrite !length_fmap in Inv. exact Inv. }
  rewrite (lookup_through_delete "Text") by discriminate.
  rewrite (lookup_through_delete "Type") by discriminate.
  rewrite (lookup_through_delete "SensorId") by discriminate.
  rewrite Inv. repeat split; vm_compute; reflexivity.
Qed.

(** Claim C10.  From the initial list on, under every schedule, each
    [Value] is a text with one decimal digit that [float] accepts, the
    updater thread is alive and no step of it crashed; and the loop runs
    any number [n] of turns without an exception. *)
Theorem values_stay_decimal (evs : list event) (n : N) :
  (exists p, updater (fst (run evs main)) = Ok p) /\
  existsb is_crashed (snd (run evs main)) = false /\
  forallb value_ok (data (fst (run evs main))) = true /\
  (exists d, passes n sensors_data = Ok d /\ forallb value_ok d = true).
Proof.
  pose proof (run_invariant well_formed step_well_formed evs main main_well_formed)
    as [Hp (s0 & s1 & s2 & Hd & B0 & B1 & B2)].
  split; [exact Hp |].
  split; [apply run_no_crash, main_well_formed |].
  split.
  - rewrite Hd. cbn. rewrite !bounded_tenths_ok by assumption. reflexivity.
  - assert (exists d, passes n sensors_data = Ok d /\
              well_formed {| updater := Ok L36; data := d |}) as (d & Hd' & Hwf).
    { induction n as [| n IH] using N.peano_ind.
      - exists sensors_data. split; [reflexivity | apply main_well_formed].
      - destruct IH as (d & Hd' & Hwf).
        rewrite passes_succ, Hd'.
        destruct Hwf as [_ (t0 & t1 & t2 & Ht & C0 & C1 & C2)]. cbn in Ht. subst d.
        destruct (bounded_tenths_bump t0 C0) as (w0 & (v0 & Hv0 & Hw0) & D0).
        destruct (bounded_tenths_bump t1 C1) as (w1 & (v1 & Hv1 & Hw1) & D1).
        destruct (bounded_tenths_bump t2 C2) as (w2 & (v2 & Hv2 & Hw2) & D2).
        rewrite (pass_three t0 t1 t2 v0 v1 v2 w0 w1 w2) by assumption.
        eexists. split; [reflexivity |].
        split; [exists L36; reflexivity | cbn; eauto 10]. }
    exists d. split; [exact Hd' |].
    destruct Hwf as [_ (t0 & t1 & t2 & Ht & C0 & C1 & C2)]. cbn in Ht. subst d.
    cbn. rewrite !bounded_tenths_ok by assumption. reflexivity.
Qed.

End EmulatorClaims.

(** ** The receiver: settled claims *)

Module ReceiverClaims.
Import Binary64 PyText Receiver PyTextFacts.

Section Claims.

Variable py_repr : json -> string.

Lemma dict_get_lookup (kvs : list (string * json)) (key : string) (default : json) :
  dict_get kvs key default =
  match dict_lookup kvs key with Some v => v | None => default end.
Proof.
  induction kvs as [| [k v] kvs IH]; [reflexivity |].
  cbn. destruct (String.eqb k key); [reflexivity | exact IH].
Qed.

Lemma shown_get (kvs : list (string * json)) (key : string) :
  py_str py_repr (dict_get kvs key (JStr "N/A")) = shown py_repr (JDict kvs) key.
Proof.
  rewrite dict_get_lookup. unfold shown.
  destruct (dict_lookup kvs key); reflexivity.
Qed.

Lemma sensor_line_dict (kvs : list (string * json)) :
  sensor_line py_repr (JDict kvs) = Ok (shown_line py_repr (JDict kvs)).
Proof.
  unfold sensor_line, sensor_get, shown_line.
  rewrite !shown_get. reflexivity.
Qed.

Lemma sensor_line_other (v : json) :
  is_dict v = false -> sensor_line py_repr v = Raise AttributeError.
Proof. destruct v; intros H; try discriminate; reflexivity. Qed.


Lemma log_sensors_other (l : list json) :
  forallb is_dict l = false ->
  exists lines, log_sensors py_repr l = (lines, Some AttributeError).
Proof.
  induction l as [| v l IH]; intros H; [discriminate |].
  cbn in H. cbn [log_sensors].
  destruct (is_dict v) eqn:Hv.
  - destruct v; try discriminate. rewrite sensor_line_dict.
    destruct (IH H) as [lines ->]. eexists. reflexivity.
  - rewrite (sensor_line_other v Hv). eexists. reflexivity.
Qed.

End Claims.

(** *** The timestamp *)





(** *** Claims *)




(** The example of the specification, and an element without keys. *)
Example receive_sample :
  printed (receive_data no_repr Flask_2_3 sample_clock
                        (post (JList [sample_reading; JDict []]))) =
  ["Received data at 2024-03-07 09:05:00:";
   "Sensor ID: 1, Sensor Name: Temp, Sensor Tag: T1, Value: 20";
   "Sensor ID: N/A, Sensor Name: N/A, Sensor Tag: N/A, Value: N/A"].
Proof. vm_compute. reflexivity. Qed.

(** Claim C3, as amended.  A POST whose body decodes to [null], to an
    empty array, to the empty object or to an empty string prints nothing.
    If its Content-Type announces JSON (or, under Flask before 2.1,
    whatever its Content-Type) it is answered 400 with exactly
    [{"status": "no data received"}]; without a JSON Content-Type Flask 2.1
    and 2.2 answer with their 400 error page and Flask from 2.3 with its
    415 error page. *)
Theorem empty_body_no_data
    (py_repr : json -> string) (fl : flask) (now : datetime)
    (req : request) (v : json) :
  payload req = Some v ->
  v = JNull \/ v = JList [] \/ v = JDict [] \/ v = JStr EmptyString ->
  let o := receive_data py_repr fl now req in
  printed o = [] /\
  (is_json req = true \/ fl = Flask_2_0 ->
   returned o = Ok no_data_received /\
   http_reply (returned o) =
     Json 400 (JDict [("status", JStr "no data received")])) /\
  (is_json req = false -> fl = Flask_2_1 ->
   returned o = Raise BadRequest /\ http_reply (returned o) = ErrorPage 400) /\
  (is_json req = false -> fl = Flask_2_3 ->
   returned o = Raise UnsupportedMediaType /\
   http_reply (returned o) = ErrorPage 415).
Proof.
  intros Hp Hv. destruct req as [j p]. cbn in Hp. subst p. cbn zeta.
  unfold receive_data, request_json. cbn [is_json payload].
  destruct j.
  - destruct Hv as [-> | [-> | [-> | ->]]]; cbn;
      (split; [reflexivity |]);
      (split; [intros _; split; reflexivity |]);
      split; intros H; discriminate H.
  - destruct fl; cbn;
      (split; [reflexivity |]);
      (split; [intros [H | H]; try discriminate H; split; reflexivity |]);
      split; intros _ H; try discriminate H; split; reflexivity.
Qed.

Lemma empty_body_no_data_witness :
  let req := post (JDict []) in
  let o := receive_data no_repr Flask_2_3 sample_clock req in
  printed o = [] /\
  (is_json req = true \/ Flask_2_3 = Flask_2_0 ->
   returned o = Ok no_data_received /\
   http_reply (returned o) =
     Json 400 (JDict [("status", JStr "no data received")])) /\
  (is_json req = false -> Flask_2_3 = Flask_2_1 ->
   returned o = Raise BadRequest /\ http_reply (returned o) = ErrorPage 400) /\
  (is_json req = false -> Flask_2_3 = Flask_2_3 ->
   returned o = Raise UnsupportedMediaType /\
   http_reply (returned o) = ErrorPage 415).
Proof.
  apply (empty_body_no_data no_repr Flask_2_3 sample_clock (post (JDict []))
           (JDict [])).
  - reflexivity.
  - right. right. left. reflexivity.
Defined.

(** Claim C3, as stated, fails: [null] posted without a JSON Content-Type
    gets Flask's 415 error page from Flask 2.3 and its 400 error page
    under Flask 2.1 and 2.2, not the handler's "no data received". *)
Lemma unannounced_null_counterexample :
  let req := {| is_json := false; payload := Some JNull |} in
  let no_data := Json 400 (JDict [("status", JStr "no data received")]) in
  let reply_of fl :=
    http_reply (returned (receive_data no_repr fl sample_clock req)) in
  (reply_of Flask_2_3 = ErrorPage 415 /\ reply_of Flask_2_3 <> no_data) /\
  (reply_of Flask_2_1 = ErrorPage 400 /\ reply_of Flask_2_1 <> no_data).
Proof. cbn. repeat split; discriminate. Qed.

(** Claim C4, as amended.  When the body is absent or is not well-formed
    JSON the handler prints nothing.  If the Content-Type announces JSON,
    [request.json] raises [BadRequest] and Flask answers with its own 400
    error page.  If it does not, Flask before 2.1 makes [request.json]
    [None] and the handler answers 400 [{"status": "no data received"}],
    Flask 2.1 and 2.2 answer with a 400 error page, Flask from 2.3 with a
    415 error page. *)
Theorem undecodable_body
    (py_repr : json -> string) (fl : flask) (now : datetime) (req : request) :
  payload req = None ->
  let o := receive_data py_repr fl now req in
  printed o = [] /\
  (is_json req = true ->
   returned o = Raise BadRequest /\ http_reply (returned o) = ErrorPage 400) /\
  (is_json req = false ->
   match fl with
   | Flask_2_0 =>
       returned o = Ok no_data_received /\
       http_reply (returned o) =
         Json 400 (JDict [("status", JStr "no data received")])
   | Flask_2_1 =>
       returned o = Raise BadRequest /\ http_reply (returned o) = ErrorPage 400
   | Flask_2_3 =>
       returned o = Raise UnsupportedMediaType /\
       http_reply (returned o) = ErrorPage 415
   end).
Proof.
  intros Hp. destruct req as [j p]. cbn in Hp. subst p.
  unfold receive_data, request_json. cbn [is_json payload].
  destruct j, fl; cbn; repeat split; intros; try discriminate; repeat split.
Qed.

Lemma undecodable_body_witness :
  let req := {| is_json := true; payload := None |} in
  let o := receive_data no_repr Flask_2_3 sample_clock req in
  printed o = [] /\
  (is_json req = true ->
   returned o = Raise BadRequest /\ http_reply (returned o) = ErrorPage 400) /\
  (is_json req = false ->
   returned o = Raise UnsupportedMediaType /\
   http_reply (returned o) = ErrorPage 415).
Proof.
  apply (undecodable_body no_repr Flask_2_3 sample_clock
           {| is_json := true; payload := None |}).
  reflexivity.
Defined.

(** Claim C4, as stated, fails: a body announced as JSON that does not
    decode never reaches the [return] of "no data received"; under every
    Flask the exception of [request.json] ends the handler and the client
    gets an error page. *)
Lemma malformed_body_counterexample :
  let req := {| is_json := true; payload := None |} in
  let no_data := Json 400 (JDict [("status", JStr "no data received")]) in
  let reply_of fl :=
    http_reply (returned (receive_data no_repr fl sample_clock req)) in
  (reply_of Flask_2_0 = ErrorPage 400 /\ reply_of Flask_2_0 <> no_data) /\
  (reply_of Flask_2_1 = ErrorPage 400 /\ reply_of Flask_2_1 <> no_data) /\
  (reply_of Flask_2_3 = ErrorPage 400 /\ reply_of Flask_2_3 <> no_data).
Proof. cbn. repeat split; discriminate. Qed.




(** Claim C9.  A body that decodes to a truthy value other than a list of
    objects makes the handler raise [TypeError] (the value is not
    iterable) or [AttributeError] (an element has no [get]); nothing
    catches it, and the client gets a 500 error page, neither of the two
    documented replies. *)
Theorem truthy_non_list_raises
    (py_repr : json -> string) (fl : flask) (now : datetime) (v : json) :
  truthy v = true -> list_of_dicts v = false ->
  let o := receive_data py_repr fl now (post v) in
  exists e, returned o = Raise e /\
            (e = TypeError \/ e = AttributeError) /\
            http_reply (returned o) = ErrorPage 500 /\
            (forall b, http_reply (returned o) <> Json 200 b) /\
            (forall b, http_reply (returned o) <> Json 400 b).
Proof.
  intros Ht Hl. cbn zeta.
  unfold receive_data, post, request_json. cbn [is_json payload].
  rewrite Ht.
  assert (forall e : exn, e = TypeError \/ e = AttributeError ->
            (e = TypeError \/ e = AttributeError) /\
            http_reply (Raise e) = ErrorPage 500 /\
            (forall b, http_reply (Raise e) <> Json 200 b) /\
            (forall b, http_reply (Raise e) <> Json 400 b)) as G.
  { intros e [-> | ->]; cbn; repeat split; auto; discriminate. }
  destruct v as [| b | z | x | s | l | kvs]; cbn [py_iter].
  - discriminate.
  - exists TypeError. split; [reflexivity | apply G; auto].
  - exists TypeError. split; [reflexivity | apply G; auto].
  - exists TypeError. split; [reflexivity | apply G; auto].
  - destruct s as [| c s]; [discriminate |].
    exists AttributeError. split; [reflexivity | apply G; auto].
  - cbn in Hl. destruct (log_sensors_other py_repr l Hl) as [lines ->].
    exists AttributeError. split; [reflexivity | apply G; auto].
  - destruct kvs as [| kv kvs]; [discriminate |].
    exists AttributeError. split; [reflexivity | apply G; auto].
Qed.

Lemma truthy_non_list_raises_witness :
  let o := receive_data no_repr Flask_2_3 sample_clock
                        (post (JDict [("ExternalId", JStr "1")])) in
  exists e, returned o = Raise e /\
            (e = TypeError \/ e = AttributeError) /\
            http_reply (returned o) = ErrorPage 500 /\
            (forall b, http_reply (returned o) <> Json 200 b) /\
            (forall b, http_reply (returned o) <> Json 400 b).
Proof.
  apply (truthy_non_list_raises no_repr Flask_2_3 sample_clock
           (JDict [("ExternalId", JStr "1")])); reflexivity.
Defined.

(** The three examples of claim C9: an object, a number, an array holding
    a string. *)
Example truthy_non_list_examples :
  let ret v := returned (receive_data no_repr Flask_2_3 sample_clock (post v)) in
  ret (JDict [("ExternalId", JStr "1")]) = Raise AttributeError /\
  ret (JInt 5) = Raise TypeError /\
  ret (JList [JStr "x"]) = Raise AttributeError.
Proof. cbn. repeat split. Qed.

End ReceiverClaims.

(** * Further properties *)

(** ** The emulator: further properties *)

Module TextExtras.
Import Binary64 PyText PyTextFacts.
Local Open Scope N_scope.

Lemma strip_ends (c0 c1 : ascii) (l : list ascii) :
  is_space c0 = false -> is_space c1 = false ->
  strip (c0 :: l ++ [c1]) = c0 :: l ++ [c1].
Proof.
  intros H0 H1. unfold strip. cbn [lstrip]. rewrite H0.
  change (c0 :: l ++ [c1]) with ((c0 :: l) ++ [c1]).
  generalize (c0 :: l). intros L.
  rewrite rev_app_distr. cbn [rev app lstrip]. rewrite H1.
  cbn [rev]. rewrite rev_involutive. reflexivity.
Qed.

Lemma read_sign_minus (l : list ascii) : read_sign ("-"%char :: l) = (true, l).
Proof. reflexivity. Qed.

(** [float] on a minus sign, digits, a point and one digit. *)
Lemma py_float_neg_fixed1 (d0 d1 : N) (dl : list N) :
  is_digit d0 -> Forall is_digit dl -> is_digit d1 ->
  exists q,
    py_float (string_of_list_ascii
                (["-"%char] ++ map digit_char (d0 :: dl) ++
                 "."%char :: digit_char d1 :: [])) = Ok (of_Q true q).
Proof.
  intros H0 Hl H1. eexists.
  unfold py_float. rewrite list_ascii_of_string_of_list_ascii.
  cbn [map app].
  replace (digit_char d0 :: map digit_char dl ++ ["."%char; digit_char d1])
    with ((digit_char d0 :: map digit_char dl ++ ["."%char]) ++ [digit_char d1])
    by (cbn [app]; rewrite <- app_assoc; reflexivity).
  rewrite strip_ends by (reflexivity || apply is_space_digit_char; assumption).
  rewrite read_sign_minus. cbn [app].
  rewrite !is_keyword_digit by auto.
  cbn [orb].
  unfold read_number, read_digitpart.
  rewrite digit_of_digit_char by assumption.
  rewrite <- app_assoc.
  rewrite digitpart_tail_digits by assumption.
  cbn [app digitpart_tail].
  change (digit_of ".") with (@None N).
  change (Ascii.eqb "." "_") with false. cbn iota.
  rewrite digit_of_digit_char by assumption.
  reflexivity.
Qed.

(** [float] accepts every text the format spec [.1f] produces. *)
Lemma py_float_format_1f (z : float) : exists x, py_float (format_1f z) = Ok x.
Proof.
  destruct z as [neg q | neg |].
  - unfold format_1f.
    set (t := Z.to_N (round_half_even (q * 10))).
    destruct (decimal_of_N_spec (t / 10)) as (dl & Hne & Hall & -> & _).
    destruct dl as [| d0 dl]; [congruence |].
    inversion Hall as [| ? ? H0 Hl]; subst.
    assert (is_digit (t mod 10)) as H1 by (apply N.mod_lt; lia).
    destruct neg.
    + destruct (py_float_neg_fixed1 d0 (t mod 10) dl H0 Hl H1) as [x Hx].
      exists (of_Q true x). exact Hx.
    + destruct (py_float_fixed1 d0 (t mod 10) dl H0 Hl H1) as (x & Hx & _).
      exists (of_Q false x). exact Hx.
  - destruct neg; eexists; vm_compute; reflexivity.
  - eexists. vm_compute. reflexivity.
Qed.

End TextExtras.

Module EmulatorExtras.
Import Binary64 PyText Emulator PyTextFacts BumpFacts EmulatorFacts TextExtras.

(** A GET does not change the process, so that the state a schedule
    reaches depends on its number of updater turns only. *)
Lemma run_turns (evs : list event) :
  forall sys,
    fst (run evs sys) = fst (run (replicate (updater_turns evs) Upd) sys).
Proof.
  induction evs as [| ev evs IH]; intros sys; [reflexivity |].
  destruct ev; cbn [updater_turns replicate]; rewrite !run_cons; cbn [fst].
  - apply IH.
  - cbn [step data_json fst]. apply IH.
Qed.

Lemma run_replicate_add (a b : nat) (sys : system) :
  fst (run (replicate (a + b) Upd) sys) =
  fst (run (replicate b Upd) (fst (run (replicate a Upd) sys))).
Proof. rewrite replicate_add, run_app. reflexivity. Qed.

Local Open Scope N_scope.

Lemma first_skip_eq : first_skip = 2814749767106566.
Proof. reflexivity. Qed.

(** One statement of the updater on a list of three sensors. *)
Lemma assign_values (i : nat) (next : pc) (u : result pc)
      (d : list (gmap string string)) (v w : string) :
  values d !! i = Some (Some v) -> bump v = Ok w ->
  exists d', assign i next {| updater := u; data := d |} =
             ({| updater := Ok next; data := d' |}, Assigned i) /\
             values d' = <[i := Some w]> (values d) /\
             delete "Value" <$> d' = delete "Value" <$> d.
Proof.
  intros Hv Hb. unfold values in Hv. rewrite list_lookup_fmap in Hv.
  destruct (d !! i) as [s |] eqn:Hd; [| discriminate]. cbn in Hv.
  injection Hv as Hs.
  pose proof (update_sensor_ok i d s v w Hd Hs Hb) as Hu.
  exists (<[i := <["Value" := w]> s]> d). unfold assign. cbn [data].
  rewrite Hu. split; [reflexivity |]. split.
  - unfold values. rewrite list_fmap_insert, lookup_insert_eq. reflexivity.
  - apply (update_sensor_frame i), Hu.
Qed.

(** The four statements of one turn of the loop, while the sensors hold
    fewer tenths than [first_skip]. *)
Lemma turn_values (n : N) (sys : system) :
  n < 2814749767105686 ->
  updater sys = Ok L36 ->
  values (data sys) =
    [Some (tenths (880 + n)); Some (tenths (200 + n)); Some (tenths (110 + n))] ->
  let s1 := fst (step Upd sys) in
  let s2 := fst (step Upd s1) in
  let s3 := fst (step Upd s2) in
  let s4 := fst (step Upd s3) in
  (updater s1 = Ok L37 /\
   values (data s1) = [Some (tenths (880 + n + 1)); Some (tenths (200 + n));
                       Some (tenths (110 + n))]) /\
  (updater s2 = Ok L38 /\
   values (data s2) = [Some (tenths (880 + n + 1)); Some (tenths (200 + n + 1));
                       Some (tenths (110 + n))]) /\
  (updater s3 = Ok L39 /\
   values (data s3) = [Some (tenths (880 + n + 1)); Some (tenths (200 + n + 1));
                       Some (tenths (110 + n + 1))]) /\
  (updater s4 = Ok L36 /\
   values (data s4) = [Some (tenths (880 + n + 1)); Some (tenths (200 + n + 1));
                       Some (tenths (110 + n + 1))]).
Proof.
  intros Hn Hu Hv. destruct sys as [u d]. cbn [updater data] in Hu, Hv. subst u.
  pose proof first_skip_eq as Hf.
  destruct (assign_values 0 L37 (Ok L36) d (tenths (880 + n)) (tenths (880 + n + 1)))
    as (d1 & E1 & V1 & _);
    [rewrite Hv; reflexivity | apply bump_exact; lia |].
  rewrite Hv in V1. cbn [list_insert insert] in V1.
  destruct (assign_values 1 L38 (Ok L37) d1 (tenths (200 + n)) (tenths (200 + n + 1)))
    as (d2 & E2 & V2 & _);
    [rewrite V1; reflexivity | apply bump_exact; lia |].
  rewrite V1 in V2. cbn [list_insert insert] in V2.
  destruct (assign_values 2 L39 (Ok L38) d2 (tenths (110 + n)) (tenths (110 + n + 1)))
    as (d3 & E3 & V3 & _);
    [rewrite V2; reflexivity | apply bump_exact; lia |].
  rewrite V2 in V3. cbn [list_insert insert] in V3.
  change (assign 0 L37 {| updater := Ok L36; data := d |})
    with (step Upd {| updater := Ok L36; data := d |}) in E1.
  change (assign 1 L38 {| updater := Ok L37; data := d1 |})
    with (step Upd {| updater := Ok L37; data := d1 |}) in E2.
  change (assign 2 L39 {| updater := Ok L38; data := d2 |})
    with (step Upd {| updater := Ok L38; data := d2 |}) in E3.
  cbn zeta. rewrite E1. cbn [fst]. rewrite E2. cbn [fst]. rewrite E3. cbn [fst].
  change (step Upd {| updater := Ok L39; data := d3 |})
    with ({| updater := Ok L36; data := d3 |}, Slept REFRESH_RATE).
  cbn [fst updater data]. auto 10.
Qed.

Lemma run_four (sys : system) :
  fst (run (replicate 4 Upd) sys) =
  fst (step Upd (fst (step Upd (fst (step Upd (fst (step Upd sys))))))).
Proof. cbn [replicate]. rewrite !run_cons. reflexivity. Qed.

(** The process after [n] whole turns of the loop. *)
Lemma whole_turns (n : nat) :
  N.of_nat n <= 2814749767105686 ->
  updater (fst (run (replicate (4 * n) Upd) main)) = Ok L36 /\
  values (data (fst (run (replicate (4 * n) Upd) main))) =
    [Some (tenths (880 + N.of_nat n)); Some (tenths (200 + N.of_nat n));
     Some (tenths (110 + N.of_nat n))].
Proof.
  induction n as [| n IH]; intros Hn.
  - split; [reflexivity | apply initial_values].
  - destruct IH as [Hu Hv]; [lia |].
    replace (4 * S n)%nat with (4 * n + 4)%nat by lia.
    rewrite run_replicate_add, run_four.
    destruct (turn_values (N.of_nat n) _ ltac:(lia) Hu Hv) as (_ & _ & _ & U4 & V4).
    cbn zeta in U4, V4. split; [exact U4 |].
    rewrite V4. replace (N.of_nat (S n)) with (N.of_nat n + 1) by lia.
    rewrite !N.add_assoc. reflexivity.
Qed.

(** Property X4.  While every pass adds one tenth, that is for the first
    11258999068422744 statements of the updater, the process is a function
    of the number [t] of updater statements run, wherever the GETs fall:
    the updater is at statement [t mod 4] of its loop, and the sensors
    hold their initial values plus [t / 4] tenths, the first [t mod 4] of
    them one tenth more. *)
Theorem values_after_turns (evs : list event) :
  N.of_nat (updater_turns evs) <= exact_turns ->
  updater (fst (run evs main)) = Ok (pc_of (updater_turns evs mod 4)) /\
  values (data (fst (run evs main))) = values_after (updater_turns evs).
Proof.
  rewrite run_turns. generalize (updater_turns evs). clear evs.
  intros t Ht. unfold exact_turns in Ht.
  pose proof (Nat.div_mod_eq t 4) as Hdm.
  pose proof (Nat.mod_upper_bound t 4 ltac:(lia)) as Hr.
  unfold values_after.
  set (n := (t / 4)%nat) in *. set (r := (t mod 4)%nat) in *.
  rewrite Hdm. clearbody n r.
  destruct (whole_turns n) as [Hu Hv]; [lia |].
  rewrite run_replicate_add.
  set (sys := fst (run (replicate (4 * n) Upd) main)) in *.
  destruct r as [| [| [| [| r]]]]; [| | | | lia].
  - cbn [replicate run fst pc_of Nat.leb]. rewrite !N.add_0_r. auto.
  - destruct (turn_values (N.of_nat n) sys ltac:(lia) Hu Hv)
      as ((U & V) & _). cbn zeta in U, V.
    cbn [replicate]. rewrite run_cons. cbn [run fst pc_of Nat.leb].
    rewrite !N.add_0_r. auto.
  - destruct (turn_values (N.of_nat n) sys ltac:(lia) Hu Hv)
      as (_ & (U & V) & _). cbn zeta in U, V.
    cbn [replicate]. rewrite !run_cons. cbn [run fst pc_of Nat.leb].
    rewrite !N.add_0_r. auto.
  - destruct (turn_values (N.of_nat n) sys ltac:(lia) Hu Hv)
      as (_ & _ & (U & V) & _). cbn zeta in U, V.
    cbn [replicate]. rewrite !run_cons. cbn [run fst pc_of Nat.leb]. auto.
Qed.

Lemma values_after_turns_witness :
  N.of_nat (updater_turns [Upd; Get; Upd; Upd; Upd; Upd; Get; Upd]) <= exact_turns /\
  updater (fst (run [Upd; Get; Upd; Upd; Upd; Upd; Get; Upd] main)) =
    Ok (pc_of (updater_turns [Upd; Get; Upd; Upd; Upd; Upd; Get; Upd] mod 4)) /\
  values (data (fst (run [Upd; Get; Upd; Upd; Upd; Upd; Get; Upd] main))) =
    values_after (updater_turns [Upd; Get; Upd; Upd; Upd; Upd; Get; Upd]).
Proof.
  split; [vm_compute; discriminate |].
  apply (values_after_turns [Upd; Get; Upd; Upd; Upd; Upd; Get; Upd]).
  vm_compute. discriminate.
Defined.

(** *** Survival of the updater *)

Lemma parsable_bump (s : gmap string string) :
  parsable s = true ->
  exists v w, s !! "Value" = Some v /\ bump v = Ok w /\
              parsable (<["Value" := w]> s) = true.
Proof.
  unfold parsable at 1. intros H.
  destruct (s !! "Value") as [v |] eqn:Hv; [| discriminate].
  destruct (py_float v) as [x |] eqn:Hx; [| discriminate].
  exists v, (format_1f (add x lit_0_1)).
  split; [reflexivity |]. split; [unfold bump; rewrite Hx; reflexivity |].
  unfold parsable. rewrite lookup_insert_eq.
  destruct (py_float_format_1f (add x lit_0_1)) as [y ->]. reflexivity.
Qed.




(** *** Bounds, replies, and the closed form of the loop *)

(** Property X7.  The [Value]s do not grow without bound: under every schedule each one
    is a number of tenths of at most 18014398509481984.0, that is [2^54],
    where one tenth is less than half the distance between doubles. *)
Theorem values_never_exceed_2_54 (evs : list event) :
  Forall bounded_tenths (data (fst (run evs main))) /\
  tenths value_bound = "18014398509481984.0"%string.
Proof.
  split; [| vm_compute; reflexivity].
  pose proof (run_invariant well_formed step_well_formed evs main main_well_formed)
    as [_ (s0 & s1 & s2 & -> & B0 & B1 & B2)].
  repeat constructor; assumption.
Qed.

(** Property X5.  After [n] turns of the loop, for [n] up to 2814749767105686, the
    sensors hold 88.0, 20.0 and 11.0 plus [n] tenths. *)
Theorem values_after_passes (n : N) :
  n <= 2814749767105686 ->
  exists d, passes n sensors_data = Ok d /\
            values d = [Some (tenths (880 + n)); Some (tenths (200 + n));
                        Some (tenths (110 + n))].
Proof.
  intros Hn. apply passes_values. rewrite first_skip_eq. lia.
Qed.

Lemma values_after_passes_witness :
  exists d, passes 1000 sensors_data = Ok d /\
            values d = [Some (tenths (880 + 1000)); Some (tenths (200 + 1000));
                        Some (tenths (110 + 1000))].
Proof.
  apply (values_after_passes 1000). vm_compute. discriminate.
Defined.

Lemma update_sensor_dom (i : nat) (d d' : list (gmap string string)) :
  update_sensor i d = Ok d' ->
  (dom <$> d' : list (gset string)) = dom <$> d.
Proof.
  unfold update_sensor. intros H.
  destruct (d !! i) as [s |] eqn:Hd; [| discriminate].
  destruct (s !! "Value") as [v |] eqn:Hv; [| discriminate].
  destruct (bump v) as [w | e]; [| discriminate].
  injection H as <-.
  rewrite list_fmap_insert, dom_insert_lookup_L by (rewrite Hv; eauto).
  apply list_insert_id. rewrite list_lookup_fmap, Hd. reflexivity.
Qed.

Lemma step_dom (ev : event) (sys : system) :
  (dom <$> data (fst (step ev sys)) : list (gset string)) = dom <$> data sys.
Proof.
  destruct ev; cbn [step]; [| reflexivity].
  unfold updater_step, assign.
  destruct (updater sys) as [[] | e]; try reflexivity;
    match goal with
    | |- context [update_sensor ?i ?d] =>
        destruct (update_sensor i d) eqn:E; cbn;
        [apply (update_sensor_dom i), E | reflexivity]
    end.
Qed.

Lemma initial_dom :
  (dom <$> sensors_data : list (gset string)) =
  [sensor_keys; sensor_keys; sensor_keys].
Proof.
  unfold sensors_data, sensor_keys. cbn [fmap list_fmap].
  repeat f_equal; rewrite !dom_insert_L, dom_singleton_L; set_solver.
Qed.

Lemma reply_ok_data (sys : system) :
  (dom <$> data sys : list (gset string)) = [sensor_keys; sensor_keys; sensor_keys] ->
  reply_ok (Served 200 (data sys)).
Proof.
  intros H. cbn. split; [reflexivity |].
  destruct (data sys) as [| s0 [| s1 [| s2 [| s3 d]]]]; try discriminate.
  injection H as H0 H1 H2. split; [reflexivity |].
  repeat constructor; assumption.
Qed.

(** Property X8.  Every reply of [/data.json], whenever it is served, is a 200 with
    exactly three objects, each with exactly the keys Text, Type, Value
    and SensorId: the updater never adds or drops a key or a sensor. *)
Theorem every_reply_has_three_full_sensors (evs : list event) :
  Forall reply_ok (snd (run evs main)).
Proof.
  assert (forall sys,
            (dom <$> data sys : list (gset string)) =
              [sensor_keys; sensor_keys; sensor_keys] ->
            Forall reply_ok (snd (run evs sys))) as G.
  { induction evs as [| ev evs IH]; intros sys H; [constructor |].
    rewrite run_cons. cbn [snd]. constructor.
    - destruct ev; cbn [step data_json snd]; [| apply reply_ok_data, H].
      unfold updater_step, assign.
      destruct (updater sys) as [[] | e]; cbn; auto;
        match goal with
        | |- context [update_sensor ?i ?d] =>
            destruct (update_sensor i d); cbn; auto
        end.
    - apply IH. rewrite step_dom. exact H. }
  apply G, initial_dom.
Qed.

(** *** The dead updater *)

Lemma dead_step (ev : event) (sys : system) (e : exn) :
  updater sys = Raise e ->
  fst (step ev sys) = sys /\
  (snd (step ev sys) = Idle \/ snd (step ev sys) = Served 200 (data sys)).
Proof.
  intros H. destruct ev; cbn [step data_json fst snd]; [| auto].
  unfold updater_step. rewrite H. auto.
Qed.

(** Property X9.  An exception in the loop is final.  Once the updater thread is dead,
    no schedule changes the process: every updater turn is idle and every
    GET serves the same list, with code 200. *)
Theorem dead_updater_is_inert (sys : system) (e : exn) (evs : list event) :
  updater sys = Raise e ->
  fst (run evs sys) = sys /\
  Forall (fun l => l = Idle \/ l = Served 200 (data sys)) (snd (run evs sys)).
Proof.
  intros H. induction evs as [| ev evs [IH1 IH2]]; [split; [reflexivity | constructor] |].
  rewrite run_cons. cbn [fst snd].
  destruct (dead_step ev sys e H) as [-> Hl].
  split; [exact IH1 | constructor; assumption].
Qed.

Lemma dead_updater_is_inert_witness :
  let sys := {| updater := Raise ValueError; data := sensors_data |} in
  fst (run [Upd; Get; Upd; Get] sys) = sys /\
  Forall (fun l => l = Idle \/ l = Served 200 (data sys))
         (snd (run [Upd; Get; Upd; Get] sys)).
Proof.
  apply (dead_updater_is_inert
           {| updater := Raise ValueError; data := sensors_data |}
           ValueError [Upd; Get; Upd; Get]).
  reflexivity.
Defined.

Lemma run_dead (sys : system) (e : exn) (k : nat) :
  updater sys = Raise e -> fst (run (replicate k Upd) sys) = sys.
Proof.
  intros H. induction k as [| k IH]; [reflexivity |].
  cbn [replicate]. rewrite run_cons. cbn [fst].
  destruct (dead_step Upd sys e H) as [-> _]. exact IH.
Qed.

Lemma step_ok (i : nat) (d d' : list (gmap string string)) :
  (i < 3)%nat -> update_sensor i d = Ok d' ->
  step Upd {| updater := Ok (pc_of i); data := d |} =
  ({| updater := Ok (pc_of (S i)); data := d' |}, Assigned i).
Proof.
  intros Hi H. destruct i as [| [| [| i]]]; [| | | lia];
    cbn [step updater_step updater pc_of]; unfold assign; cbn [data];
    rewrite H; reflexivity.
Qed.

Lemma step_raise (i : nat) (d : list (gmap string string)) (e : exn) :
  (i < 3)%nat -> update_sensor i d = Raise e ->
  step Upd {| updater := Ok (pc_of i); data := d |} =
  ({| updater := Raise e; data := d |}, Crashed e).
Proof.
  intros Hi H. destruct i as [| [| [| i]]]; [| | | lia];
    cbn [step updater_step updater pc_of]; unfold assign; cbn [data];
    rewrite H; reflexivity.
Qed.

(** Property X10.  A pass is not atomic, and a failure is not undone.
    If statement [i] of the loop raises (an ASCII [Value] that is no
    number, or no [Value] key) while the sensors before it are in order,
    then under every schedule that gives the updater more than [i] turns
    the thread is dead of that exception, the sensors before [i] have been
    bumped once, the others keep the [Value] they had, and no other key
    has changed. *)
Theorem failed_statement_freezes_list
    (d : list (gmap string string)) (i : nat) (s : gmap string string)
    (e : exn) (evs : list event) :
  length d = 3%nat -> (i < 3)%nat ->
  forallb parsable (take i d) = true ->
  d !! i = Some s -> ascii_value s = true ->
  update_sensor i d = Raise e ->
  (i < updater_turns evs)%nat ->
  updater (fst (run evs {| updater := Ok L36; data := d |})) = Raise e /\
  values (data (fst (run evs {| updater := Ok L36; data := d |}))) =
    (bumped <$> take i (values d)) ++ drop i (values d) /\
  delete "Value" <$> data (fst (run evs {| updater := Ok L36; data := d |})) =
    delete "Value" <$> d.
Proof.
  intros Hlen Hi Hok _ _ Hbad Ht.
  rewrite run_turns.
  replace (updater_turns evs) with (S i + (updater_turns evs - S i))%nat by lia.
  rewrite run_replicate_add.
  generalize (updater_turns evs - S i)%nat. intros k. clear Ht evs.
  destruct d as [| s0 [| s1 [| s2 [| s3 d]]]]; try discriminate. clear Hlen.
  change L36 with (pc_of 0).
  destruct i as [| [| [| i]]]; [| | | lia].
  - (* statement 0 fails *)
    assert (fst (run (replicate 1 Upd) {| updater := Ok (pc_of 0); data := [s0; s1; s2] |})
            = {| updater := Raise e; data := [s0; s1; s2] |}) as E.
    { cbn [replicate]. rewrite run_cons.
      rewrite (step_raise 0 _ e) by (lia || exact Hbad). reflexivity. }
    rewrite E, (run_dead _ e k) by reflexivity. cbn [updater data]. auto.
  - (* statement 1 fails *)
    cbn in Hok. rewrite andb_true_r in Hok.
    destruct (parsable_bump s0 Hok) as (v0 & w0 & Hv0 & Hw0 & _).
    assert (update_sensor 1 [<["Value" := w0]> s0; s1; s2] = Raise e) as Hbad'.
    { unfold update_sensor in *. cbn in *.
      destruct (s1 !! "Value") as [v |]; [| exact Hbad].
      destruct (bump v); [discriminate | exact Hbad]. }
    assert (fst (run (replicate 2 Upd) {| updater := Ok (pc_of 0); data := [s0; s1; s2] |})
            = {| updater := Raise e; data := [<["Value" := w0]> s0; s1; s2] |}) as E.
    { cbn [replicate]. rewrite !run_cons.
      rewrite (step_ok 0 _ _ ltac:(lia)
                 (update_sensor_ok 0 [s0; s1; s2] s0 v0 w0 eq_refl Hv0 Hw0)).
      cbn [fst list_insert insert].
      rewrite (step_raise 1 _ e) by (lia || exact Hbad'). reflexivity. }
    rewrite E, (run_dead _ e k) by reflexivity. cbn [updater data].
    split; [reflexivity |]. split.
    + unfold values.
      cbn [map fmap list_fmap take drop app firstn skipn].
      rewrite lookup_insert_eq, Hv0. unfold bumped. rewrite Hw0. reflexivity.
    + cbn. rewrite delete_insert_eq. reflexivity.
  - (* statement 2 fails *)
    cbn in Hok. rewrite andb_true_r in Hok.
    apply andb_true_iff in Hok as [Hok0 Hok1].
    destruct (parsable_bump s0 Hok0) as (v0 & w0 & Hv0 & Hw0 & _).
    destruct (parsable_bump s1 Hok1) as (v1 & w1 & Hv1 & Hw1 & _).
    assert (update_sensor 2 [<["Value" := w0]> s0; <["Value" := w1]> s1; s2] = Raise e)
      as Hbad'.
    { unfold update_sensor in *. cbn in *.
      destruct (s2 !! "Value") as [v |]; [| exact Hbad].
      destruct (bump v); [discriminate | exact Hbad]. }
    assert (fst (run (replicate 3 Upd) {| updater := Ok (pc_of 0); data := [s0; s1; s2] |})
            = {| updater := Raise e;
                 data := [<["Value" := w0]> s0; <["Value" := w1]> s1; s2] |}) as E.
    { cbn [replicate]. rewrite !run_cons.
      rewrite (step_ok 0 _ _ ltac:(lia)
                 (update_sensor_ok 0 [s0; s1; s2] s0 v0 w0 eq_refl Hv0 Hw0)).
      cbn [fst list_insert insert].
      rewrite (step_ok 1 _ _ ltac:(lia)
                 (update_sensor_ok 1 [<["Value" := w0]> s0; s1; s2] s1 v1 w1 eq_refl Hv1 Hw1)).
      cbn [fst list_insert insert].
      rewrite (step_raise 2 _ e) by (lia || exact Hbad'). reflexivity. }
    rewrite E, (run_dead _ e k) by reflexivity. cbn [updater data].
    split; [reflexivity |]. split.
    + unfold values.
      cbn [map fmap list_fmap take drop app firstn skipn].
      rewrite !lookup_insert_eq, Hv0, Hv1. unfold bumped. rewrite Hw0, Hw1.
      reflexivity.
    + cbn. rewrite !delete_insert_eq. reflexivity.
Qed.

Lemma failed_statement_freezes_list_witness :
  let sys := {| updater := Ok L36; data := broken_sensors |} in
  updater (fst (run [Upd; Get; Upd; Upd; Get] sys)) = Raise ValueError /\
  values (data (fst (run [Upd; Get; Upd; Upd; Get] sys))) =
    (bumped <$> take 1 (values broken_sensors)) ++ drop 1 (values broken_sensors) /\
  delete "Value" <$> data (fst (run [Upd; Get; Upd; Upd; Get] sys)) =
    delete "Value" <$> broken_sensors.
Proof.
  apply (failed_statement_freezes_list broken_sensors 1
           {[ "Text" := "b"; "Value" := "n/a" ]}%string ValueError
           [Upd; Get; Upd; Upd; Get]).
  - reflexivity.
  - lia.
  - vm_compute. reflexivity.
  - reflexivity.
  - vm_compute. reflexivity.
  - vm_compute. reflexivity.
  - cbn. lia.
Defined.

(** *** The shape of what the updater writes *)



End EmulatorExtras.

(** ** The receiver: further properties *)

Module ReceiverExtras.
Import Binary64 PyText Receiver PyTextFacts ReceiverClaims.






(** Property X3.  The line of an element depends on the four keys ExternalId, Name,
    Value and SensorTag only: other keys, and the order of the keys, do
    not show. *)
Theorem line_reads_four_keys
    (py_repr : json -> string) (kvs kvs' : list (string * json)) :
  Forall (fun key => dict_lookup kvs key = dict_lookup kvs' key) logged_keys ->
  sensor_line py_repr (JDict kvs) = sensor_line py_repr (JDict kvs').
Proof.
  intros H. rewrite !sensor_line_dict. unfold shown_line, shown.
  inversion H as [| ? ? H1 H']; subst. inversion H' as [| ? ? H2 H'']; subst.
  inversion H'' as [| ? ? H3 H''']; subst. inversion H''' as [| ? ? H4 _]; subst.
  rewrite H1, H2, H3, H4. reflexivity.
Qed.

Lemma line_reads_four_keys_witness :
  sensor_line no_repr
    (JDict [("Name", JStr "Temp"); ("Unit", JStr "C"); ("Value", JInt 20)]) =
  sensor_line no_repr (JDict [("Value", JInt 20); ("Name", JStr "Temp")]).
Proof.
  apply (line_reads_four_keys no_repr
           [("Name", JStr "Temp"); ("Unit", JStr "C"); ("Value", JInt 20)]
           [("Value", JInt 20); ("Name", JStr "Temp")]).
  repeat constructor.
Defined.

End ReceiverExtras.
